(** * DataOps Copilot front end: upload widget, results widget, API client

    A shallow embedding of the TypeScript sources
      - frontend/components/features/FileUpload.tsx
      - frontend/components/features/ProfileResults.tsx
      - the dashboard page (Dashboard) and the API client (lib/api)
    together with the properties their specification states.

    JavaScript numbers are modelled by their exact rational value ([Q]):
    every finite double is a dyadic rational, and the operations the sources
    use on numbers (comparison with a constant, division by a power of two,
    [toFixed]) are exact on that value.  Strings are [string] (the UTF-8
    bytes of the source literal). *)

From Stdlib Require Import String Ascii List Bool ZArith QArith Qround Qabs Lia.
Import ListNotations.
Open Scope string_scope.
Set Warnings "-register-all".

(** ** The JavaScript host *)

(** What the sources take from the host environment and what is not fixed by
    the language alone. *)
Class JSHost : Type := {
  (** Number::toString on a value that is not a safe integer: the shortest
      round-trip digits of the double, possibly in exponent notation. *)
  shortestRoundTrip : Q -> string;
  (** Number.prototype.toLocaleString(): grouping depends on the locale. *)
  toLocaleString : Q -> string;
  (** String.prototype.toUpperCase(): Unicode case mapping. *)
  toUpperCase : string -> string
}.

Module JS.

Definition MAX_SAFE_INTEGER : Z := 2 ^ 53 - 1.

Definition ltb (x y : Q) : bool := negb (Qle_bool y x).

Definition isInteger (x : Q) : bool := Qeq_bool x (inject_Z (Qfloor x)).

Definition digitChar (d : Z) : ascii := ascii_of_nat (48 + Z.to_nat d).

Fixpoint digitsFuel (fuel : nat) (n : Z) : string :=
  match fuel with
  | O => ""
  | S fuel' =>
      if (n <? 10)%Z then String (digitChar n) ""
      else digitsFuel fuel' (n / 10) ++ String (digitChar (n mod 10)) ""
  end.

(** "the digits of the decimal representation of n" (n a non-negative
    integer); "0" for 0. *)
Definition decimalDigits (n : Z) : string :=
  digitsFuel (S (Z.to_nat (Z.log2 n))) n.

Fixpoint zeros (k : nat) : string :=
  match k with
  | O => ""
  | S k' => String "0" (zeros k')
  end.

Definition pow10 (f : nat) : Q := inject_Z (10 ^ Z.of_nat f).

Section WithHost.
Context {host : JSHost}.

(** Number::toString.  A safe integer prints as its decimal digits; any
    other value prints as the host's shortest round-trip digits. *)
Definition Number_toString (x : Q) : string :=
  if isInteger x && (Z.abs (Qfloor x) <=? MAX_SAFE_INTEGER)%Z
  then (if ltb x 0 then "-" else "") ++ decimalDigits (Z.abs (Qfloor x))
  else shortestRoundTrip x.

(** Number.prototype.toFixed(f), ECMA-262 21.1.3.3, on a finite value. *)
Definition toFixed (x : Q) (f : nat) : string :=
  let s := if ltb x 0 then "-" else "" in
  let x := Qabs x in
  if Qle_bool (pow10 21) x then s ++ Number_toString x
  else
    (* the integer n for which n / 10^f - x is closest to zero, the
       larger one when there are two *)
    let n := Qfloor (x * pow10 f + (1 # 2))%Q in
    let m := decimalDigits n in
    let m :=
      match f with
      | O => m
      | S _ =>
          let m := if (String.length m <=? f)%nat
                   then zeros (f + 1 - String.length m) ++ m else m in
          let k := String.length m in
          substring 0 (k - f) m ++ "." ++ substring (k - f) f m
      end in
    s ++ m.

End WithHost.

End JS.

(** ** FileUpload.tsx *)

(** A browser [File]: the widget reads its name and its size in bytes. *)
Module File.
Record t : Type := { name : string; size : Z }.
End File.

(** The three [useState] cells of the component. *)
Record UploadState : Type := {
  selectedFile : option File.t;
  useLLM : bool;
  isDragging : bool
}.

Definition initialUploadState : UploadState :=
  {| selectedFile := None; useLLM := true; isDragging := false |}.

Definition setSelectedFile (v : option File.t) (st : UploadState) : UploadState :=
  {| selectedFile := v; useLLM := useLLM st; isDragging := isDragging st |}.

Definition setUseLLM (v : bool) (st : UploadState) : UploadState :=
  {| selectedFile := selectedFile st; useLLM := v; isDragging := isDragging st |}.

Definition setIsDragging (v : bool) (st : UploadState) : UploadState :=
  {| selectedFile := selectedFile st; useLLM := useLLM st; isDragging := v |}.

(** What a handler does besides updating the state: a call of the [onUpload]
    prop, or [fileInputRef.current?.click()]. *)
Inductive UploadEffect : Type :=
| onUpload (file : File.t) (useLLM : bool)
| openFilePicker.

Definition handleDragOver (st : UploadState) : UploadState :=
  setIsDragging true st.

Definition handleDragLeave (st : UploadState) : UploadState :=
  setIsDragging false st.

(** [files] is [e.dataTransfer.files]. *)
Definition handleDrop (files : list File.t) (st : UploadState) : UploadState :=
  let st := setIsDragging false st in
  match files with
  | file0 :: _ => setSelectedFile (Some file0) st
  | [] => st
  end.

(** [files] is [e.target.files], which may be null. *)
Definition handleFileSelect (files : option (list File.t)) (st : UploadState)
  : UploadState :=
  match files with
  | Some (file0 :: _) => setSelectedFile (Some file0) st
  | _ => st
  end.

Definition handleUpload (st : UploadState) : list UploadEffect :=
  match selectedFile st with
  | Some file => [onUpload file (useLLM st)]
  | None => []
  end.

(** The interactive elements of the JSX. *)
Inductive Control : Type :=
| DropZone          (* the dashed card with the three drag handlers *)
| SelectFileButton
| LLMCheckbox
| AnalyzeButton
| CancelButton
| FileInput.        (* the hidden <input type="file"> *)

Definition Control_eqb (a b : Control) : bool :=
  match a, b with
  | DropZone, DropZone | SelectFileButton, SelectFileButton
  | LLMCheckbox, LLMCheckbox | AnalyzeButton, AnalyzeButton
  | CancelButton, CancelButton | FileInput, FileInput => true
  | _, _ => false
  end.

(** The controls the component renders, in document order, each with its
    [disabled] attribute. *)
Definition controls (isLoading : bool) (st : UploadState) : list (Control * bool) :=
  [(DropZone, false)] ++
  match selectedFile st with
  | None => [(SelectFileButton, isLoading)]
  | Some _ => [(LLMCheckbox, false); (AnalyzeButton, isLoading); (CancelButton, isLoading)]
  end ++
  [(FileInput, false)].

(** A control takes user input when it is rendered and not disabled. *)
Definition enabled (isLoading : bool) (st : UploadState) (c : Control) : bool :=
  existsb (fun cd => Control_eqb c (fst cd) && negb (snd cd)) (controls isLoading st).

(** The label of the Analyze button. *)
Definition analyzeLabel (isLoading : bool) : string :=
  if isLoading then "Processing..." else "Analyze File".

(** [{error && (...)}]: the text of the inline error block, when shown. *)
Definition errorBlock (error : option string) : option string :=
  match error with
  | Some msg => if (msg =? "")%string then None else Some msg
  | None => None
  end.

Inductive UploadEvent : Type :=
| DragOver
| DragLeave
| Drop (files : list File.t)
| Change (files : option (list File.t))   (* onChange of the file input *)
| Check (checked : bool)                  (* onChange of the checkbox *)
| Click (c : Control).

Definition target (ev : UploadEvent) : Control :=
  match ev with
  | DragOver | DragLeave | Drop _ => DropZone
  | Change _ => FileInput
  | Check _ => LLMCheckbox
  | Click c => c
  end.

Definition handle (ev : UploadEvent) (st : UploadState)
  : UploadState * list UploadEffect :=
  match ev with
  | DragOver => (handleDragOver st, [])
  | DragLeave => (handleDragLeave st, [])
  | Drop files => (handleDrop files st, [])
  | Change files => (handleFileSelect files st, [])
  | Check checked => (setUseLLM checked st, [])
  | Click SelectFileButton => (st, [openFilePicker])
  | Click AnalyzeButton => (st, handleUpload st)
  | Click CancelButton => (setSelectedFile None st, [])
  | Click _ => (st, [])
  end.

(** The browser delivers an event only to a rendered, enabled control. *)
Definition dispatch (isLoading : bool) (st : UploadState) (ev : UploadEvent)
  : UploadState * list UploadEffect :=
  if enabled isLoading st (target ev) then handle ev st else (st, []).

Section FileSize.
Context {host : JSHost}.

Definition formatFileSize (bytes : Q) : string :=
  if JS.ltb bytes 1024 then JS.Number_toString bytes ++ " B"
  else if JS.ltb bytes (1024 * 1024)%Q then JS.toFixed (bytes / 1024)%Q 1 ++ " KB"
  else JS.toFixed (bytes / (1024 * 1024))%Q 1 ++ " MB".

(** The file card shown once a file is selected: name and formatted size. *)
Definition fileCard (st : UploadState) : option (string * string) :=
  match selectedFile st with
  | Some file => Some (File.name file, formatFileSize (inject_Z (File.size file)))
  | None => None
  end.

End FileSize.

(** ** lib/api: the response types *)

(** A parsed JSON value (the element type of [sample_values: any[]]). *)
Inductive JSONValue : Type :=
| JNull
| JBool (b : bool)
| JNumber (x : Q)
| JString (s : string)
| JArray (items : list JSONValue)
| JObject (fields : list (string * JSONValue)).

(** An optional field [f?: T] is [option T]; [None] stands for both
    [undefined] and a JSON [null]. *)
Module BasicStats.
Record t : Type := {
  row_count : Q;
  column_count : Q;
  memory_usage_mb : Q;
  duplicate_rows : Q;
  total_nulls : Q;
  null_percentage : Q
}.
End BasicStats.

Module ColumnAnalysis.
Record t : Type := {
  name : string;
  dtype : string;
  null_count : Q;
  null_percentage : Q;
  unique_count : Q;
  unique_percentage : Q;
  min : option Q;
  max : option Q;
  mean : option Q;
  median : option Q;
  std : option Q;
  avg_length : option Q;
  max_length : option Q;
  min_length : option Q;
  sample_values : option (list JSONValue);
  min_date : option string;
  max_date : option string
}.
End ColumnAnalysis.

Module QualityIssue.
Record t : Type := {
  severity : string;
  type : string;
  column : option string;
  description : string;
  recommendation : string
}.
End QualityIssue.

Module LLMInsights.
Record t : Type := {
  insights : string;
  model_used : option string;
  tokens_used : option Q
}.
End LLMInsights.

Module ProfileResponse.
Record t : Type := {
  file_name : string;
  timestamp : string;
  basic_stats : BasicStats.t;
  columns : list ColumnAnalysis.t;
  quality_issues : list QualityIssue.t;
  llm_insights : option LLMInsights.t;
  upload_id : option string;
  file_size_mb : option Q;
  success : bool
}.
End ProfileResponse.

(** ** ProfileResults.tsx *)

(** What a React component returns.  [nothing] is a child that renders no DOM
    ([false], [null], [undefined]); [elem] carries the tag (or component
    name), the [className], the [onClick] callback if any, and the children.
    The [key] of a list item plays no part in what is shown and is left out. *)
Inductive Node (E : Type) : Type :=
| nothing
| text (s : string)
| elem (tag className : string) (onClick : option E) (children : list (Node E)).

Arguments nothing {E}.
Arguments text {E} s.
Arguments elem {E} tag className onClick children.

Fixpoint textContent {E} (n : Node E) : string :=
  match n with
  | nothing => ""
  | text s => s
  | elem _ _ _ children =>
      (fix go (cs : list (Node E)) : string :=
         match cs with
         | [] => ""
         | c :: cs' => textContent c ++ go cs'
         end) children
  end.

(** The text of every [h2] heading of a tree, in document order. *)
Fixpoint headings {E} (n : Node E) : list string :=
  match n with
  | nothing | text _ => []
  | elem tag _ _ children =>
      ((if (tag =? "h2")%string then [textContent n] else []) ++
       (fix go (cs : list (Node E)) : list string :=
          match cs with
          | [] => []
          | c :: cs' => headings c ++ go cs'
          end) children)%list
  end.

(** The elements of a tree with a given tag, in document order. *)
Fixpoint elementsByTag {E} (t : string) (n : Node E) : list (Node E) :=
  match n with
  | nothing | text _ => []
  | elem tag _ _ children =>
      ((if (tag =? t)%string then [n] else []) ++
       (fix go (cs : list (Node E)) : list (Node E) :=
          match cs with
          | [] => []
          | c :: cs' => elementsByTag t c ++ go cs'
          end) children)%list
  end.

Definition children {E} (n : Node E) : list (Node E) :=
  match n with
  | elem _ _ _ cs => cs
  | _ => []
  end.

Definition getSeverityColor (severity : string) : string :=
  if (severity =? "high")%string then "bg-red-100 text-red-800 border-red-200"
  else if (severity =? "medium")%string then "bg-yellow-100 text-yellow-800 border-yellow-200"
  else if (severity =? "low")%string then "bg-blue-100 text-blue-800 border-blue-200"
  else "bg-gray-100 text-gray-800 border-gray-200".

Section ProfileResults.
Context {host : JSHost} {E : Type}.

Definition header (file_name : string) (onReset : E) : Node E :=
  elem "div" "flex justify-between items-center" None
    [ elem "div" "" None
        [ elem "h1" "text-3xl font-bold text-gray-900 mb-2" None
            [text "Analysis Results"];
          elem "p" "text-gray-600" None
            [text "File: "; elem "span" "font-medium" None [text file_name]] ];
      elem "button" "btn-secondary flex items-center space-x-2" (Some onReset)
        [ elem "RotateCcw" "h-4 w-4" None [];
          elem "span" "" None [text "Upload New File"] ] ].

Definition statCard (icon iconClass label : string) (value : list (Node E))
  : Node E :=
  elem "div" "card" None
    [ elem "div" "flex items-center space-x-3" None
        [ elem icon iconClass None [];
          elem "div" "" None
            [ elem "p" "text-sm text-gray-600" None [text label];
              elem "p" "text-2xl font-bold text-gray-900" None value ] ] ].

Definition basicStats (basic_stats : BasicStats.t) : Node E :=
  elem "div" "grid grid-cols-1 md:grid-cols-3 gap-6" None
    [ statCard "Database" "h-8 w-8 text-primary-600" "Total Rows"
        [text (toLocaleString (BasicStats.row_count basic_stats))];
      statCard "FileText" "h-8 w-8 text-primary-600" "Total Columns"
        [text (JS.Number_toString (BasicStats.column_count basic_stats))];
      statCard "AlertTriangle" "h-8 w-8 text-yellow-600" "Null Values"
        [text (JS.toFixed (BasicStats.null_percentage basic_stats) 1); text "%"] ].

Definition issueCard (issue : QualityIssue.t) : Node E :=
  elem "div"
    ("p-4 rounded-lg border " ++ getSeverityColor (QualityIssue.severity issue)) None
    [ elem "div" "flex justify-between items-start" None
        [ elem "div" "flex-1" None
            [ elem "p" "font-medium mb-1" None
                [text (QualityIssue.description issue)];
              elem "p" "text-sm opacity-80" None
                [text "💡 "; text (QualityIssue.recommendation issue)] ];
          elem "span"
            "ml-4 px-2 py-1 text-xs font-semibold rounded-full bg-white bg-opacity-50"
            None
            [text (toUpperCase (QualityIssue.severity issue))] ] ].

(** [{quality_issues.length > 0 && (...)}] *)
Definition qualityIssuesPanel (quality_issues : list QualityIssue.t) : Node E :=
  if (0 <? List.length quality_issues)%nat then
    elem "div" "card" None
      [ elem "h2" "text-xl font-bold text-gray-900 mb-4 flex items-center space-x-2" None
          [ elem "AlertTriangle" "h-6 w-6 text-yellow-600" None [];
            elem "span" "" None
              [ text "Quality Issues (";
                text (JS.Number_toString
                        (inject_Z (Z.of_nat (List.length quality_issues))));
                text ")" ] ];
        elem "div" "space-y-3" None (map issueCard quality_issues) ]
  else nothing.

(** The last cell of a column row: two independent conditional spans. *)
Definition statsCell (col : ColumnAnalysis.t) : Node E :=
  elem "td" "px-4 py-3 text-sm text-gray-600" None
    [ match ColumnAnalysis.mean col with
      | Some mean => elem "span" "" None [text "μ: "; text (JS.toFixed mean 2)]
      | None => nothing
      end;
      match ColumnAnalysis.avg_length col with
      | Some avg_length =>
          elem "span" "" None [text "avg len: "; text (JS.toFixed avg_length 0)]
      | None => nothing
      end ].

Definition columnRow (col : ColumnAnalysis.t) : Node E :=
  elem "tr" "hover:bg-gray-50" None
    [ elem "td" "px-4 py-3 text-sm font-medium text-gray-900" None
        [text (ColumnAnalysis.name col)];
      elem "td" "px-4 py-3 text-sm text-gray-600" None
        [ elem "span" "px-2 py-1 bg-blue-100 text-blue-800 rounded text-xs" None
            [text (ColumnAnalysis.dtype col)] ];
      elem "td" "px-4 py-3 text-sm text-gray-600" None
        [ text (toLocaleString (ColumnAnalysis.unique_count col));
          text " (";
          text (JS.toFixed (ColumnAnalysis.unique_percentage col) 1);
          text "%)" ];
      elem "td" "px-4 py-3 text-sm text-gray-600" None
        [ text (toLocaleString (ColumnAnalysis.null_count col));
          text " (";
          text (JS.toFixed (ColumnAnalysis.null_percentage col) 1);
          text "%)" ];
      statsCell col ].

Definition columnHeader (label : string) : Node E :=
  elem "th" "px-4 py-3 text-left text-xs font-medium text-gray-500 uppercase" None
    [text label].

Definition columnAnalysis (columns : list ColumnAnalysis.t) : Node E :=
  elem "div" "card" None
    [ elem "h2" "text-xl font-bold text-gray-900 mb-4" None
        [ text "Column Analysis (";
          text (JS.Number_toString (inject_Z (Z.of_nat (List.length columns))));
          text ")" ];
      elem "div" "overflow-x-auto" None
        [ elem "table" "min-w-full divide-y divide-gray-200" None
            [ elem "thead" "" None
                [ elem "tr" "bg-gray-50" None
                    (map columnHeader ["Column"; "Type"; "Unique"; "Nulls"; "Stats"]) ];
              elem "tbody" "bg-white divide-y divide-gray-200" None
                (map columnRow columns) ] ] ].

(** [{llm_insights.model_used && (<p>...</p>)}]: a JavaScript [&&] yields
    its left operand when that is falsy ([undefined], or the empty string,
    which React shows as no text), else the paragraph. *)
Definition attributionLine (ins : LLMInsights.t) : Node E :=
  match LLMInsights.model_used ins with
  | None => nothing
  | Some model_used =>
      if (model_used =? "")%string then text ""
      else
        elem "p" "text-sm text-gray-600" None
          [ text "Powered by ";
            text model_used;
            text " • ";
            match LLMInsights.tokens_used ins with
            | Some tokens_used => text (toLocaleString tokens_used)
            | None => nothing
            end;
            text " tokens" ]
  end.

(** [{llm_insights && (...)}] *)
Definition insightsPanel (llm_insights : option LLMInsights.t) : Node E :=
  match llm_insights with
  | None => nothing
  | Some ins =>
      elem "div"
        "card bg-gradient-to-br from-primary-50 to-indigo-50 border-primary-200" None
        [ elem "div" "flex items-start space-x-3 mb-4" None
            [ elem "div" "flex-shrink-0 bg-primary-600 text-white rounded-lg p-2" None
                [ elem "span" "text-2xl" None [text "🤖"] ];
              elem "div" "flex-1" None
                [ elem "h2" "text-xl font-bold text-gray-900 mb-1" None
                    [text "AI Insights"];
                  attributionLine ins ] ];
          elem "div" "prose prose-sm max-w-none" None
            [ elem "div" "whitespace-pre-wrap text-gray-800" None
                [text (LLMInsights.insights ins)] ] ]
  end.

Definition successMessage : Node E :=
  elem "div" "card bg-green-50 border-green-200" None
    [ elem "div" "flex items-center space-x-3" None
        [ elem "CheckCircle" "h-6 w-6 text-green-600" None [];
          elem "div" "" None
            [ elem "p" "font-medium text-green-900" None [text "Analysis Complete"];
              elem "p" "text-sm text-green-700" None
                [text "Your data has been successfully profiled with AI-powered insights"] ] ] ].

Definition ProfileResults (result : ProfileResponse.t) (onReset : E) : Node E :=
  elem "div" "space-y-6" None
    [ header (ProfileResponse.file_name result) onReset;
      basicStats (ProfileResponse.basic_stats result);
      qualityIssuesPanel (ProfileResponse.quality_issues result);
      columnAnalysis (ProfileResponse.columns result);
      insightsPanel (ProfileResponse.llm_insights result);
      successMessage ].

End ProfileResults.

(** ** lib/api: the client *)

(** A JavaScript [Error]; the callers read its [message]. *)
Record Error : Type := { message : string }.

(** A settled promise: fulfilled with a value, or rejected with an error.
    [await] continues on the value and propagates a rejection. *)
Inductive Settled (A : Type) : Type :=
| Fulfilled (value : A)
| Rejected (reason : Error).

Arguments Fulfilled {A} value.
Arguments Rejected {A} reason.

Definition await {A B : Type} (p : Settled A) (k : A -> Settled B) : Settled B :=
  match p with
  | Fulfilled value => k value
  | Rejected reason => Rejected reason
  end.

Notation "'let_await' x ':=' p 'in' k" := (await p (fun x => k))
  (at level 10, x name, p at level 100, k at level 200).

(** [FormData]: an ordered list of entries; [append] adds at the end. *)
Inductive FormValue : Type :=
| FileValue (file : File.t)
| StringValue (s : string).

Definition FormData : Type := list (string * FormValue).

Definition FormData_append (key : string) (value : FormValue) (fd : FormData)
  : FormData :=
  (fd ++ [(key, value)])%list.

Definition Boolean_toString (b : bool) : string :=
  if b then "true" else "false".

Module Axios.

Record Request : Type := {
  method : string;
  url : string;
  headers : list (string * string);
  body : FormData
}.

(** What the network does with a request: no reply at all, or a reply with
    a status code and a body ([D] is the type the parsed JSON is read at). *)
Inductive HttpOutcome (D : Type) : Type :=
| NetworkFailure (message : string)
| HttpReply (status : Z) (data : D).

Arguments NetworkFailure {D} message.
Arguments HttpReply {D} status data.

Record Response (D : Type) : Type := { data : D; status : Z }.
Arguments data {D} _.
Arguments status {D} _.

Record Instance : Type := {
  baseURL : string;
  defaultHeaders : list (string * string)
}.

(** axios' default [validateStatus]. *)
Definition validateStatus (status : Z) : bool :=
  (200 <=? status)%Z && (status <? 300)%Z.

Definition mergeHeaders (defaults overrides : list (string * string))
  : list (string * string) :=
  (filter (fun kv => negb (existsb (fun kv' => (fst kv =? fst kv')%string) overrides))
          defaults ++ overrides)%list.

(** [instance.post(path, body, {headers})]: resolves with the response on a
    status accepted by [validateStatus], rejects with an error carrying the
    message otherwise and when the transport fails. *)
Definition post {D : Type} (inst : Instance) (http : Request -> HttpOutcome D)
    (path : string) (formData : FormData) (hdrs : list (string * string))
  : Settled (Response D) :=
  let request :=
    {| method := "POST";
       url := baseURL inst ++ path;
       headers := mergeHeaders (defaultHeaders inst) hdrs;
       body := formData |} in
  match http request with
  | NetworkFailure msg => Rejected {| message := msg |}
  | HttpReply code d =>
      if validateStatus code then Fulfilled {| data := d; status := code |}
      else Rejected
             {| message := "Request failed with status code " ++
                           (if (code <? 0)%Z then "-" else "") ++
                           JS.decimalDigits (Z.abs code) |}
  end.

End Axios.

Section Client.
(** [process.env.NEXT_PUBLIC_API_URL] *)
Variable NEXT_PUBLIC_API_URL : option string.

(** [process.env.NEXT_PUBLIC_API_URL || 'http://localhost:8000'] *)
Definition API_URL : string :=
  match NEXT_PUBLIC_API_URL with
  | Some v => if (v =? "")%string then "http://localhost:8000" else v
  | None => "http://localhost:8000"
  end.

Definition api : Axios.Instance :=
  {| Axios.baseURL := API_URL ++ "/api/v1";
     Axios.defaultHeaders := [("Content-Type", "application/json")] |}.

(** [useLLM] and [description] are [None] when the argument is omitted;
    [useLLM] then takes its default [true]. *)
Definition uploadAndProfile {D : Type} (http : Axios.Request -> Axios.HttpOutcome D)
    (file : File.t) (useLLM : option bool) (description : option string)
  : Settled D :=
  let useLLM := match useLLM with Some b => b | None => true end in
  let formData : FormData := [] in
  let formData := FormData_append "file" (FileValue file) formData in
  let formData :=
    FormData_append "use_llm" (StringValue (Boolean_toString useLLM)) formData in
  let formData :=
    match description with
    | Some d =>
        if (d =? "")%string then formData
        else FormData_append "description" (StringValue d) formData
    | None => formData
    end in
  let_await response :=
    Axios.post api http "/data/upload" formData
      [("Content-Type", "multipart/form-data")] in
  Fulfilled (Axios.data response).

End Client.

(** ** The dashboard page *)

(** The state [useMutation] exposes (TanStack Query). *)
Module Mutation.

Inductive Status : Type := idle | pending | success | error.

Record t (D V : Type) : Type := {
  status : Status;
  data : option D;
  failure : option Error;      (* the [error] field *)
  variables : option V
}.
Arguments status {D V} _.
Arguments data {D V} _.
Arguments failure {D V} _.
Arguments variables {D V} _.

Definition initial {D V : Type} : t D V :=
  {| status := idle; data := None; failure := None; variables := None |}.

(** [mutate(variables)]: a fresh mutation, pending. *)
Definition mutate {D V : Type} (v : V) (m : t D V) : t D V :=
  {| status := pending; data := None; failure := None; variables := Some v |}.

Definition reset {D V : Type} (m : t D V) : t D V := initial.

Definition succeed {D V : Type} (d : D) (m : t D V) : t D V :=
  {| status := success; data := Some d; failure := None; variables := variables m |}.

Definition fail {D V : Type} (e : Error) (m : t D V) : t D V :=
  {| status := error; data := data m; failure := Some e; variables := variables m |}.

Definition isPending {D V : Type} (m : t D V) : bool :=
  match status m with pending => true | _ => false end.

End Mutation.

(** What [response.data] is after a reply to the upload: [Some r] when the
    parsed body is a profiling document, read at the declared type
    [ProfileResponse] as the client's unchecked cast does, and [None] when it
    is a falsy value (a JSON null, false or 0, or the empty body of a 204),
    which the page's [!profileResult] test does not tell from "no result". *)
Definition ResponseData : Type := option ProfileResponse.t.

Section Dashboard.
Context {host : JSHost}.
Variable NEXT_PUBLIC_API_URL : option string.

(** The page's own [useState] cell and mutation, and the hook state of the
    [FileUpload] instance while one is mounted. *)
Record DashboardState : Type := {
  profileResult : option ProfileResponse.t;
  uploadMutation : Mutation.t ResponseData (File.t * bool);
  fileUpload : option UploadState
}.

Definition setProfileResult (v : option ProfileResponse.t) (s : DashboardState)
  : DashboardState :=
  {| profileResult := v;
     uploadMutation := uploadMutation s;
     fileUpload := fileUpload s |}.

Definition setUploadMutation (m : Mutation.t ResponseData (File.t * bool))
    (s : DashboardState) : DashboardState :=
  {| profileResult := profileResult s;
     uploadMutation := m;
     fileUpload := fileUpload s |}.

Definition handleFileUpload (file : File.t) (useLLM : bool) (s : DashboardState)
  : DashboardState :=
  let s := setProfileResult None s in
  setUploadMutation (Mutation.mutate (file, useLLM) (uploadMutation s)) s.

Definition handleReset (s : DashboardState) : DashboardState :=
  let s := setProfileResult None s in
  setUploadMutation (Mutation.reset (uploadMutation s)) s.

(** The mutation settles: [mutationFn] is [uploadAndProfile(file, useLLM)],
    [onSuccess] stores the data as it is. *)
Definition settle (outcome : Axios.HttpOutcome ResponseData) (s : DashboardState)
  : DashboardState :=
  match Mutation.isPending (uploadMutation s), Mutation.variables (uploadMutation s) with
  | true, Some (file, useLLM) =>
      match uploadAndProfile NEXT_PUBLIC_API_URL (fun _ => outcome)
              file (Some useLLM) None with
      | Fulfilled d =>
          let s := setUploadMutation (Mutation.succeed d (uploadMutation s)) s in
          setProfileResult d s
      | Rejected e =>
          setUploadMutation (Mutation.fail e (uploadMutation s)) s
      end
  | _, _ => s
  end.

(** The page callbacks a child can be given. *)
Inductive Callback : Type := onReset.

(** What the page shows: [!profileResult ? <FileUpload .../> :
    <ProfileResults .../>], the first with its props and hook state. *)
Inductive View : Type :=
| UploadView (widget : UploadState) (isLoading : bool) (error : option string)
| ResultsView (tree : Node Callback).

(** Rendering mounts a [FileUpload] with fresh hook state where the
    previous render had none, keeps a mounted one, and unmounts it (losing
    its state) when the results are shown instead. *)
Definition render (s : DashboardState) : DashboardState :=
  {| profileResult := profileResult s;
     uploadMutation := uploadMutation s;
     fileUpload :=
       match profileResult s with
       | None =>
           match fileUpload s with
           | Some w => Some w
           | None => Some initialUploadState
           end
       | Some _ => None
       end |}.

Definition view (s : DashboardState) : View :=
  match profileResult s with
  | None =>
      UploadView
        (match fileUpload s with Some w => w | None => initialUploadState end)
        (Mutation.isPending (uploadMutation s))
        (option_map message (Mutation.failure (uploadMutation s)))
  | Some result => ResultsView (ProfileResults result onReset)
  end.

Definition initialDashboard : DashboardState :=
  render {| profileResult := None;
            uploadMutation := Mutation.initial;
            fileUpload := None |}.

Inductive DashboardEvent : Type :=
| Widget (ev : UploadEvent)      (* a user event on the mounted FileUpload *)
| ResetClick                     (* the button of ProfileResults *)
| Settles (outcome : Axios.HttpOutcome ResponseData).

Definition runEffect (s : DashboardState) (eff : UploadEffect) : DashboardState :=
  match eff with
  | onUpload file useLLM => handleFileUpload file useLLM s
  | openFilePicker => s
  end.

Definition step (s : DashboardState) (ev : DashboardEvent) : DashboardState :=
  render
    match ev with
    | Widget e =>
        match fileUpload s with
        | Some w =>
            let (w', effects) :=
              dispatch (Mutation.isPending (uploadMutation s)) w e in
            fold_left runEffect effects
              {| profileResult := profileResult s;
                 uploadMutation := uploadMutation s;
                 fileUpload := Some w' |}
        | None => s
        end
    | ResetClick =>
        match profileResult s with
        | Some _ => handleReset s
        | None => s
        end
    | Settles outcome => settle outcome s
    end.

Inductive reachable : DashboardState -> Prop :=
| reachable_initial : reachable initialDashboard
| reachable_step s ev : reachable s -> reachable (step s ev).

End Dashboard.

(** ** Queries on a rendered tree *)

Definition className {E} (n : Node E) : string :=
  match n with
  | elem _ cls _ _ => cls
  | _ => ""
  end.

Fixpoint startsWith (s pre : string) {struct pre} : bool :=
  match pre with
  | EmptyString => true
  | String a pre' =>
      match s with
      | EmptyString => false
      | String b s' => Ascii.eqb a b && startsWith s' pre'
      end
  end.

(** The elements whose [className] starts with a given text, in document
    order. *)
Fixpoint elementsByClassPrefix {E} (pre : string) (n : Node E) : list (Node E) :=
  match n with
  | nothing | text _ => []
  | elem _ cls _ cs =>
      ((if startsWith cls pre then [n] else []) ++
       (fix go (cs : list (Node E)) : list (Node E) :=
          match cs with
          | [] => []
          | c :: cs' => elementsByClassPrefix pre c ++ go cs'
          end) cs)%list
  end.

(** The constant part of the class of an issue card. *)
Definition cardClass : string := "p-4 rounded-lg border ".

(** The [onClick] callbacks of a tree, in document order. *)
Fixpoint callbacks {E} (n : Node E) : list E :=
  match n with
  | nothing | text _ => []
  | elem _ _ oc cs =>
      (match oc with Some e => [e] | None => [] end ++
       (fix go (cs : list (Node E)) : list E :=
          match cs with
          | [] => []
          | c :: cs' => callbacks c ++ go cs'
          end) cs)%list
  end.

(** ** The specification's wording of number formats *)

Module Spec.

(** [m] tenths is a nearest one-decimal value to [x]. *)
Definition nearestTenth (x : Q) (m : Z) : Prop :=
  (Qabs (inject_Z m / 10 - x) <= 1 # 20)%Q.

(** [m] tenths written with one decimal place: "<m div 10>.<m mod 10>". *)
Definition oneDecimal (m : Z) : string :=
  JS.decimalDigits (m / 10) ++ "." ++ JS.decimalDigits (m mod 10).

(** [m] hundredths is a nearest two-decimal value to [x]. *)
Definition nearestHundredth (x : Q) (m : Z) : Prop :=
  (Qabs (inject_Z m / 100 - x) <= 1 # 200)%Q.

(** [k] is a nearest integer to [x]. *)
Definition nearestUnit (x : Q) (k : Z) : Prop :=
  (Qabs (inject_Z k - x) <= 1 # 2)%Q.

(** [m] hundredths written with two decimal places:
    "<m div 100>.<tens digit><units digit>". *)
Definition twoDecimals (m : Z) : string :=
  JS.decimalDigits (m / 100) ++ "." ++
  JS.decimalDigits ((m / 10) mod 10) ++ JS.decimalDigits (m mod 10).

(** The minus sign of a negative number. *)
Definition sign (x : Q) : string := if JS.ltb x 0 then "-" else "".

(** The stats cell as the specification words it: the mean with two
    decimals when present, else the average length with no decimals when
    present, else nothing. *)
Definition statsText {host : JSHost} (col : ColumnAnalysis.t) : string :=
  match ColumnAnalysis.mean col with
  | Some mean => "μ: " ++ JS.toFixed mean 2
  | None =>
      match ColumnAnalysis.avg_length col with
      | Some avg_length => "avg len: " ++ JS.toFixed avg_length 0
      | None => ""
      end
  end.

End Spec.

(** ** Sample data *)

Definition sampleFile : File.t := {| File.name := "sales.csv"; File.size := 1536 |}.

Definition otherFile : File.t := {| File.name := "extra.csv"; File.size := 10 |}.

(** A column carrying both a mean and an average length. *)
Definition bothStatsColumn : ColumnAnalysis.t :=
  {| ColumnAnalysis.name := "amount";
     ColumnAnalysis.dtype := "float64";
     ColumnAnalysis.null_count := 0;
     ColumnAnalysis.null_percentage := 0;
     ColumnAnalysis.unique_count := 4;
     ColumnAnalysis.unique_percentage := 100;
     ColumnAnalysis.min := Some 1;
     ColumnAnalysis.max := Some 2;
     ColumnAnalysis.mean := Some (3 # 2);
     ColumnAnalysis.median := Some (3 # 2);
     ColumnAnalysis.std := None;
     ColumnAnalysis.avg_length := Some 3;
     ColumnAnalysis.max_length := None;
     ColumnAnalysis.min_length := None;
     ColumnAnalysis.sample_values := None;
     ColumnAnalysis.min_date := None;
     ColumnAnalysis.max_date := None |}.

(** A numeric column whose mean is 10^21. *)
Definition hugeMeanColumn : ColumnAnalysis.t :=
  {| ColumnAnalysis.name := "total";
     ColumnAnalysis.dtype := "float64";
     ColumnAnalysis.null_count := 0;
     ColumnAnalysis.null_percentage := 0;
     ColumnAnalysis.unique_count := 1;
     ColumnAnalysis.unique_percentage := 100;
     ColumnAnalysis.min := None;
     ColumnAnalysis.max := None;
     ColumnAnalysis.mean := Some (inject_Z (10 ^ 21));
     ColumnAnalysis.median := None;
     ColumnAnalysis.std := None;
     ColumnAnalysis.avg_length := None;
     ColumnAnalysis.max_length := None;
     ColumnAnalysis.min_length := None;
     ColumnAnalysis.sample_values := None;
     ColumnAnalysis.min_date := None;
     ColumnAnalysis.max_date := None |}.

(** Insights whose [model_used] is the empty string and whose [tokens_used]
    is missing. *)
Definition emptyModelInsights : LLMInsights.t :=
  {| LLMInsights.insights := "Looks clean.";
     LLMInsights.model_used := Some "";
     LLMInsights.tokens_used := None |}.

Definition namedModelInsights : LLMInsights.t :=
  {| LLMInsights.insights := "Looks clean.";
     LLMInsights.model_used := Some "claude-x";
     LLMInsights.tokens_used := None |}.

Definition anonymousInsights : LLMInsights.t :=
  {| LLMInsights.insights := "Looks clean.";
     LLMInsights.model_used := None;
     LLMInsights.tokens_used := Some 1200 |}.

Definition sampleResult : ProfileResponse.t :=
  {| ProfileResponse.file_name := "sales.csv";
     ProfileResponse.timestamp := "2024-01-01T00:00:00";
     ProfileResponse.basic_stats :=
       {| BasicStats.row_count := 120;
          BasicStats.column_count := 1;
          BasicStats.memory_usage_mb := 1 # 10;
          BasicStats.duplicate_rows := 0;
          BasicStats.total_nulls := 0;
          BasicStats.null_percentage := 0 |};
     ProfileResponse.columns := [bothStatsColumn];
     ProfileResponse.quality_issues := [];
     ProfileResponse.llm_insights := Some anonymousInsights;
     ProfileResponse.upload_id := None;
     ProfileResponse.file_size_mb := None;
     ProfileResponse.success := true |}.

(** The same document flagged as failed by the server, with other metadata. *)
Definition failedFlagResult : ProfileResponse.t :=
  {| ProfileResponse.file_name := "sales.csv";
     ProfileResponse.timestamp := "1999-12-31T23:59:59";
     ProfileResponse.basic_stats :=
       {| BasicStats.row_count := 120;
          BasicStats.column_count := 1;
          BasicStats.memory_usage_mb := 7;
          BasicStats.duplicate_rows := 3;
          BasicStats.total_nulls := 9;
          BasicStats.null_percentage := 0 |};
     ProfileResponse.columns := [bothStatsColumn];
     ProfileResponse.quality_issues := [];
     ProfileResponse.llm_insights := Some anonymousInsights;
     ProfileResponse.upload_id := Some "u-17";
     ProfileResponse.file_size_mb := Some 2;
     ProfileResponse.success := false |}.

Definition highIssue : QualityIssue.t :=
  {| QualityIssue.severity := "high";
     QualityIssue.type := "missing_values";
     QualityIssue.column := Some "amount";
     QualityIssue.description := "Many nulls";
     QualityIssue.recommendation := "Impute" |}.

(** A host to run the definitions on: English grouping is not modelled, the
    three functions are the simplest total ones. *)
Definition plainHost : JSHost := {|
  shortestRoundTrip := fun _ => "NaN";
  toLocaleString := fun x => JS.decimalDigits (Qfloor (Qabs x));
  toUpperCase := fun s => s
|}.

(** * Properties *)

(** ** Strings and decimal digits *)

Lemma length_append (a b : string) :
  String.length (a ++ b) = (String.length a + String.length b)%nat.
Proof. induction a as [|c a IH]; simpl; [reflexivity | now rewrite IH]. Qed.

Lemma append_nil_r (a : string) : a ++ "" = a.
Proof. induction a as [|c a IH]; simpl; [reflexivity | now rewrite IH]. Qed.

Lemma append_assoc (a b c : string) : (a ++ b) ++ c = a ++ (b ++ c).
Proof. induction a as [|x a IH]; simpl; [reflexivity | now rewrite IH]. Qed.

Lemma substring_prefix (a b : string) :
  substring 0 (String.length a) (a ++ b) = a.
Proof.
  induction a as [|c a IH]; simpl.
  - destruct b; reflexivity.
  - now rewrite IH.
Qed.

Lemma substring_all (b : string) : substring 0 (String.length b) b = b.
Proof. induction b as [|c b IH]; simpl; [reflexivity | now rewrite IH]. Qed.

Lemma substring_suffix (a b : string) :
  substring (String.length a) (String.length b) (a ++ b) = b.
Proof.
  induction a as [|c a IH]; simpl.
  - apply substring_all.
  - exact IH.
Qed.

Lemma digitsFuel_enough (f1 f2 : nat) :
  forall n : Z,
    (0 <= n)%Z -> (1 <= f1)%nat -> (1 <= f2)%nat ->
    (n < 2 ^ Z.of_nat f1)%Z -> (n < 2 ^ Z.of_nat f2)%Z ->
    JS.digitsFuel f1 n = JS.digitsFuel f2 n.
Proof.
  revert f2; induction f1 as [|f1 IH]; intros f2 n Hn H1 H2 B1 B2; [lia|].
  destruct f2 as [|f2]; [lia|]. simpl.
  destruct (n <? 10)%Z eqn:Hlt; [reflexivity|].
  apply Z.ltb_ge in Hlt.
  assert (P1 : (2 ^ Z.of_nat (S f1) = 2 * 2 ^ Z.of_nat f1)%Z)
    by (rewrite Nat2Z.inj_succ, Z.pow_succ_r; lia).
  assert (P2 : (2 ^ Z.of_nat (S f2) = 2 * 2 ^ Z.of_nat f2)%Z)
    by (rewrite Nat2Z.inj_succ, Z.pow_succ_r; lia).
  assert (D : (n / 10 <= n / 2)%Z)
    by (apply Z.div_le_compat_l; lia).
  assert (D2 : (n / 2 < 2 ^ Z.of_nat f1)%Z)
    by (apply Z.div_lt_upper_bound; lia).
  assert (D3 : (n / 2 < 2 ^ Z.of_nat f2)%Z)
    by (apply Z.div_lt_upper_bound; lia).
  assert (Q0 : (0 <= n / 10)%Z) by (apply Z.div_pos; lia).
  assert (F1 : (1 <= f1)%nat).
  { destruct f1; [|lia]. simpl in D2. assert (5 <= n / 2)%Z by (apply Z.div_le_lower_bound; lia). lia. }
  assert (F2 : (1 <= f2)%nat).
  { destruct f2; [|lia]. simpl in D3. assert (5 <= n / 2)%Z by (apply Z.div_le_lower_bound; lia). lia. }
  rewrite (IH f2 (n / 10)%Z); [reflexivity | lia..].
Qed.

Lemma decimalDigits_fuel (n : Z) :
  (0 <= n)%Z ->
  (1 <= S (Z.to_nat (Z.log2 n)))%nat /\
  (n < 2 ^ Z.of_nat (S (Z.to_nat (Z.log2 n))))%Z.
Proof.
  intros Hn. split; [lia|].
  rewrite Nat2Z.inj_succ, Z2Nat.id by apply Z.log2_nonneg.
  destruct (Z.eq_dec n 0) as [->|Hz]; [reflexivity|].
  apply Z.log2_spec. lia.
Qed.

Lemma decimalDigits_digit (n : Z) :
  (0 <= n < 10)%Z -> JS.decimalDigits n = String (JS.digitChar n) "".
Proof.
  intros [H0 H10]. unfold JS.decimalDigits. simpl.
  apply Z.ltb_lt in H10. now rewrite H10.
Qed.

Lemma decimalDigits_step (n : Z) :
  (10 <= n)%Z ->
  JS.decimalDigits n =
  JS.decimalDigits (n / 10) ++ String (JS.digitChar (n mod 10)) "".
Proof.
  intros H10. unfold JS.decimalDigits at 1.
  cbn [JS.digitsFuel].
  assert (Hlt : (n <? 10)%Z = false) by (apply Z.ltb_ge; lia).
  rewrite Hlt. f_equal.
  assert (Q0 : (0 <= n / 10)%Z) by (apply Z.div_pos; lia).
  destruct (decimalDigits_fuel n ltac:(lia)) as [_ B].
  destruct (decimalDigits_fuel (n / 10) Q0) as [F2 B2].
  unfold JS.decimalDigits.
  rewrite Nat2Z.inj_succ in B. rewrite Z.pow_succ_r in B by lia.
  assert (D : (n / 10 <= n / 2)%Z) by (apply Z.div_le_compat_l; lia).
  assert (D2 : (n / 2 < 2 ^ Z.of_nat (Z.to_nat (Z.log2 n)))%Z)
    by (apply Z.div_lt_upper_bound; lia).
  apply digitsFuel_enough; try lia.
  assert (1 <= Z.log2 n)%Z by (apply Z.log2_le_pow2; simpl; lia).
  lia.
Qed.

Lemma decimalDigits_nonempty (n : Z) :
  (0 <= n)%Z -> (1 <= String.length (JS.decimalDigits n))%nat.
Proof.
  intros Hn. destruct (Z_lt_le_dec n 10) as [Hs|Hb].
  - rewrite decimalDigits_digit by lia. simpl. lia.
  - rewrite decimalDigits_step by lia. rewrite length_append. simpl. lia.
Qed.

(** ** toFixed *)

Lemma Qabs_nonneg_eq (x : Q) : (0 <= x)%Q -> Qabs x = x.
Proof.
  destruct x as [a b]. unfold Qle. simpl. intros H.
  unfold Qabs. rewrite Z.abs_eq by lia. reflexivity.
Qed.

Lemma ltb_zero_nonneg (x : Q) : (0 <= x)%Q -> JS.ltb x 0 = false.
Proof.
  intros H. unfold JS.ltb. apply Qle_bool_iff in H. now rewrite H.
Qed.

Lemma ltb_false_iff (x y : Q) : JS.ltb x y = false <-> (y <= x)%Q.
Proof.
  unfold JS.ltb. rewrite negb_false_iff. apply Qle_bool_iff.
Qed.

Lemma ltb_true_iff (x y : Q) : JS.ltb x y = true <-> (x < y)%Q.
Proof.
  unfold JS.ltb. rewrite negb_true_iff. split; intros H.
  - apply Qnot_le_lt. intros C. apply Qle_bool_iff in C. congruence.
  - destruct (Qle_bool y x) eqn:E; [|reflexivity].
    apply Qle_bool_iff in E. exfalso. exact (Qlt_not_le _ _ H E).
Qed.

(** Below 10^21, [toFixed(1)] of a non-negative value is the nearest number
    of tenths (the larger on a tie), written with one decimal place. *)
Lemma toFixed_1_nonneg {host : JSHost} (x : Q) :
  (0 <= x)%Q -> (x < JS.pow10 21)%Q ->
  JS.toFixed x 1 = Spec.oneDecimal (Qfloor (x * JS.pow10 1 + (1 # 2))).
Proof.
  intros H0 Hbig. unfold JS.toFixed.
  rewrite (ltb_zero_nonneg x H0), (Qabs_nonneg_eq x H0).
  assert (Hb : Qle_bool (JS.pow10 21) x = false).
  { destruct (Qle_bool (JS.pow10 21) x) eqn:E; [|reflexivity].
    apply Qle_bool_iff in E. exfalso. exact (Qlt_not_le _ _ Hbig E). }
  rewrite Hb. cbn [append].
  set (n := Qfloor (x * JS.pow10 1 + (1 # 2))).
  assert (Hn : (0 <= n)%Z).
  { change 0%Z with (Qfloor 0). apply Qfloor_resp_le.
    apply Qle_trans with (x * JS.pow10 1)%Q.
    - apply Qmult_le_0_compat; [exact H0 | discriminate].
    - rewrite <- (Qplus_0_r (x * JS.pow10 1)) at 1.
      apply Qplus_le_r. discriminate. }
  unfold Spec.oneDecimal.
  destruct (Z_lt_le_dec n 10) as [Hs|Hl].
  - rewrite (decimalDigits_digit n) by lia.
    rewrite Z.div_small, Z.mod_small by lia.
    rewrite (decimalDigits_digit n) by lia. reflexivity.
  - rewrite (decimalDigits_step n Hl).
    set (a := JS.decimalDigits (n / 10)).
    assert (La : (1 <= String.length a)%nat)
      by (apply decimalDigits_nonempty; apply Z.div_pos; lia).
    set (c := String (JS.digitChar (n mod 10)) "").
    assert (Hlen : String.length (a ++ c) = S (String.length a))
      by (rewrite length_append; simpl; lia).
    rewrite Hlen.
    assert (Hle : (S (String.length a) <=? 1)%nat = false)
      by (apply Nat.leb_gt; lia).
    rewrite Hle, Hlen.
    replace (S (String.length a) - 1)%nat with (String.length a) by lia.
    rewrite substring_prefix.
    change 1%nat with (String.length c) at 1.
    rewrite substring_suffix.
    rewrite (decimalDigits_digit (n mod 10)).
    + reflexivity.
    + apply Z.mod_pos_bound. lia.
Qed.

(** ** formatFileSize *)

Lemma Number_toString_safe {host : JSHost} (n : Z) :
  (0 <= n <= JS.MAX_SAFE_INTEGER)%Z ->
  JS.Number_toString (inject_Z n) = JS.decimalDigits n.
Proof.
  intros [H0 Hmax]. unfold JS.Number_toString, JS.isInteger.
  rewrite Qfloor_Z.
  assert (E : Qeq_bool (inject_Z n) (inject_Z n) = true)
    by (apply Qeq_bool_iff; reflexivity).
  rewrite E, Z.abs_eq by lia.
  assert (L : (n <=? JS.MAX_SAFE_INTEGER)%Z = true) by (apply Z.leb_le; lia).
  rewrite L. cbn [andb].
  rewrite ltb_zero_nonneg; [reflexivity|].
  unfold Qle. simpl. lia.
Qed.

Lemma tenths_of_ratio (n : Z) (p : positive) :
  Qfloor (inject_Z n / inject_Z (Zpos p) * JS.pow10 1 + (1 # 2)) =
  ((20 * n + Zpos p) / (2 * Zpos p))%Z.
Proof.
  assert (E : (inject_Z n / inject_Z (Zpos p) * JS.pow10 1 + (1 # 2) ==
               (20 * n + Zpos p) # (2 * p))%Q).
  { unfold JS.pow10, Qeq, Qdiv, Qmult, Qplus, Qinv, inject_Z. cbn [Qnum Qden].
    change (10 ^ Z.of_nat 1)%Z with 10%Z. rewrite ?Pos2Z.inj_mul. lia. }
  rewrite E. reflexivity.
Qed.

Lemma nearestTenth_of_ratio (n : Z) (p : positive) :
  Spec.nearestTenth (inject_Z n / inject_Z (Zpos p))
                    ((20 * n + Zpos p) / (2 * Zpos p)).
Proof.
  unfold Spec.nearestTenth.
  set (m := ((20 * n + Zpos p) / (2 * Zpos p))%Z).
  assert (Hm : (2 * Zpos p * m <= 20 * n + Zpos p < 2 * Zpos p * m + 2 * Zpos p)%Z).
  { unfold m. split.
    - apply Z.mul_div_le. lia.
    - pose proof (Z.mod_pos_bound (20 * n + Zpos p) (2 * Zpos p) ltac:(lia)) as B.
      pose proof (Z.div_mod (20 * n + Zpos p) (2 * Zpos p) ltac:(lia)) as D.
      lia. }
  apply Qabs_Qle_condition.
  unfold Qle, Qminus, Qdiv, Qmult, Qplus, Qopp, Qinv, inject_Z. cbn [Qnum Qden].
  rewrite ?Pos2Z.inj_mul. split; lia.
Qed.

Lemma ratio_nonneg (n : Z) (p : positive) :
  (0 <= n)%Z -> (0 <= inject_Z n / inject_Z (Zpos p))%Q.
Proof.
  intros H. unfold Qle, Qdiv, Qmult, Qinv, inject_Z. cbn [Qnum Qden]. lia.
Qed.

Lemma ratio_small (n : Z) (p : positive) :
  (n <= JS.MAX_SAFE_INTEGER)%Z ->
  (inject_Z n / inject_Z (Zpos p) < JS.pow10 21)%Q.
Proof.
  intros H. unfold JS.pow10, Qlt, Qdiv, Qmult, Qinv, inject_Z. cbn [Qnum Qden].
  unfold JS.MAX_SAFE_INTEGER in H.
  change (2 ^ 53 - 1)%Z with 9007199254740991%Z in H.
  change (10 ^ Z.of_nat 21)%Z with 1000000000000000000000%Z.
  rewrite ?Pos2Z.inj_mul.
  assert (P : (1 <= Z.pos p)%Z) by lia.
  apply Z.lt_le_trans with (1000000000000000000000 * 1)%Z; [lia|].
  apply Z.mul_le_mono_nonneg_l; lia.
Qed.

(** C5.  For a byte count n (a non-negative safe integer, as [File.size]
    is), [formatFileSize] returns the digits of n and " B" below 1024; n/1024
    rounded to one decimal place and " KB" from 1024 and below 1,048,576;
    n/1,048,576 rounded to one decimal place and " MB" from there on.
    [formatFileSize(0)] is "0 B", [formatFileSize(1536)] is "1.5 KB" and
    [formatFileSize(1572864)] is "1.5 MB". *)
Theorem formatFileSize_spec {host : JSHost} (n : Z)
    (Hn : (0 <= n <= JS.MAX_SAFE_INTEGER)%Z) :
  ((n < 1024)%Z ->
   formatFileSize (inject_Z n) = JS.decimalDigits n ++ " B") /\
  ((1024 <= n < 1048576)%Z ->
   exists m, Spec.nearestTenth (inject_Z n / 1024) m /\
             formatFileSize (inject_Z n) = Spec.oneDecimal m ++ " KB") /\
  ((1048576 <= n)%Z ->
   exists m, Spec.nearestTenth (inject_Z n / 1048576) m /\
             formatFileSize (inject_Z n) = Spec.oneDecimal m ++ " MB") /\
  formatFileSize 0 = "0 B" /\
  formatFileSize 1536 = "1.5 KB" /\
  formatFileSize 1572864 = "1.5 MB".
Proof.
  destruct Hn as [H0 Hmax].
  assert (L1 : forall k : Z, (n < k)%Z -> JS.ltb (inject_Z n) (inject_Z k) = true).
  { intros k Hk. apply ltb_true_iff. unfold Qlt. simpl. lia. }
  assert (L2 : forall k : Z, (k <= n)%Z -> JS.ltb (inject_Z n) (inject_Z k) = false).
  { intros k Hk. apply ltb_false_iff. unfold Qle. simpl. lia. }
  split; [|split; [|split; [|split; [|split]]]].
  - intros Hlt. unfold formatFileSize.
    change 1024%Q with (inject_Z 1024). rewrite (L1 1024%Z Hlt).
    rewrite Number_toString_safe by lia. reflexivity.
  - intros [Hge Hlt].
    exists ((20 * n + 1024) / (2 * 1024))%Z. split.
    + exact (nearestTenth_of_ratio n 1024).
    + unfold formatFileSize.
      change 1024%Q with (inject_Z 1024).
      change (inject_Z 1024 * inject_Z 1024)%Q with (inject_Z 1048576).
      rewrite (L2 1024%Z Hge), (L1 1048576%Z Hlt).
      rewrite toFixed_1_nonneg.
      * now rewrite (tenths_of_ratio n 1024).
      * apply (ratio_nonneg n 1024 H0).
      * apply (ratio_small n 1024 Hmax).
  - intros Hge.
    exists ((20 * n + 1048576) / (2 * 1048576))%Z. split.
    + exact (nearestTenth_of_ratio n 1048576).
    + unfold formatFileSize.
      change 1024%Q with (inject_Z 1024).
      change (inject_Z 1024 * inject_Z 1024)%Q with (inject_Z 1048576).
      rewrite (L2 1024%Z ltac:(lia)), (L2 1048576%Z Hge).
      rewrite toFixed_1_nonneg.
      * now rewrite (tenths_of_ratio n 1048576).
      * apply (ratio_nonneg n 1048576 H0).
      * apply (ratio_small n 1048576 Hmax).
  - vm_compute. reflexivity.
  - vm_compute. reflexivity.
  - vm_compute. reflexivity.
Qed.

Lemma formatFileSize_spec_witness :
  (0 <= 2048 <= JS.MAX_SAFE_INTEGER)%Z /\
  exists m, Spec.nearestTenth (inject_Z 2048 / 1024) m /\
            @formatFileSize plainHost (inject_Z 2048) = Spec.oneDecimal m ++ " KB".
Proof.
  assert (H : (0 <= 2048 <= JS.MAX_SAFE_INTEGER)%Z)
    by (unfold JS.MAX_SAFE_INTEGER; simpl; lia).
  split; [exact H|].
  apply (proj1 (proj2 (@formatFileSize_spec plainHost 2048 H))). lia.
Defined.

(** ** getSeverityColor *)

(** C4.  The badge colour is a total function of the severity string: "high"
    gives the red classes, "medium" the yellow ones, "low" the blue ones, and
    every other string, "critical" among them, the gray default. *)
Theorem getSeverityColor_spec (severity : string) :
  getSeverityColor "high" = "bg-red-100 text-red-800 border-red-200" /\
  getSeverityColor "medium" = "bg-yellow-100 text-yellow-800 border-yellow-200" /\
  getSeverityColor "low" = "bg-blue-100 text-blue-800 border-blue-200" /\
  getSeverityColor "critical" = "bg-gray-100 text-gray-800 border-gray-200" /\
  (severity <> "high" -> severity <> "medium" -> severity <> "low" ->
   getSeverityColor severity = "bg-gray-100 text-gray-800 border-gray-200").
Proof.
  repeat (split; [reflexivity|]).
  intros Hh Hm Hl. unfold getSeverityColor.
  apply String.eqb_neq in Hh, Hm, Hl.
  now rewrite Hh, Hm, Hl.
Qed.

Lemma getSeverityColor_spec_witness :
  ("HIGH" <> "high" /\ "HIGH" <> "medium" /\ "HIGH" <> "low") /\
  getSeverityColor "HIGH" = "bg-gray-100 text-gray-800 border-gray-200".
Proof.
  assert (H : "HIGH" <> "high" /\ "HIGH" <> "medium" /\ "HIGH" <> "low")
    by (repeat split; discriminate).
  split; [exact H|].
  destruct H as [Hh [Hm Hl]].
  exact (proj2 (proj2 (proj2 (proj2 (getSeverityColor_spec "HIGH")))) Hh Hm Hl).
Defined.

(** ** The upload widget *)

Lemma enabled_DropZone (isLoading : bool) (st : UploadState) :
  enabled isLoading st DropZone = true.
Proof. reflexivity. Qed.

Lemma enabled_FileInput (isLoading : bool) (st : UploadState) :
  enabled isLoading st FileInput = true.
Proof.
  unfold enabled, controls. destruct (selectedFile st); reflexivity.
Qed.

Lemma enabled_AnalyzeButton (isLoading : bool) (st : UploadState) :
  enabled isLoading st AnalyzeButton =
  match selectedFile st with Some _ => negb isLoading | None => false end.
Proof.
  unfold enabled, controls.
  destruct (selectedFile st); destruct isLoading; reflexivity.
Qed.

(** C7.  A drop or a file-picker selection carrying at least one file sets
    [selectedFile] to the first file and ignores the others; a drop also
    clears [isDragging]; an event carrying no file leaves [selectedFile]
    unchanged. *)
Theorem first_file_only (isLoading : bool) (st : UploadState)
    (file0 : File.t) (others : list File.t) :
  selectedFile (fst (dispatch isLoading st (Drop (file0 :: others)))) = Some file0 /\
  isDragging (fst (dispatch isLoading st (Drop (file0 :: others)))) = false /\
  selectedFile (fst (dispatch isLoading st (Change (Some (file0 :: others))))) = Some file0 /\
  selectedFile (fst (dispatch isLoading st (Drop []))) = selectedFile st /\
  selectedFile (fst (dispatch isLoading st (Change (Some [])))) = selectedFile st /\
  selectedFile (fst (dispatch isLoading st (Change None))) = selectedFile st.
Proof.
  unfold dispatch. cbn [target].
  rewrite enabled_DropZone, enabled_FileInput.
  repeat split.
Qed.

(** C9.  Drag-over sets [isDragging] and changes nothing else, drag-leave
    clears it and changes nothing else, a drop changes at most [isDragging]
    and [selectedFile]; none of the three touches [useLLM], and none calls
    back. *)
Theorem drag_events_frame (isLoading : bool) (st : UploadState)
    (files : list File.t) :
  dispatch isLoading st DragOver =
    ({| selectedFile := selectedFile st; useLLM := useLLM st; isDragging := true |}, []) /\
  dispatch isLoading st DragLeave =
    ({| selectedFile := selectedFile st; useLLM := useLLM st; isDragging := false |}, []) /\
  useLLM (fst (dispatch isLoading st (Drop files))) = useLLM st /\
  snd (dispatch isLoading st (Drop files)) = [].
Proof.
  unfold dispatch. cbn [target]. rewrite enabled_DropZone.
  repeat split; destruct files; reflexivity.
Qed.

(** Only a click on the enabled Analyze button calls [onUpload], and it
    passes the selected file and the flag of that moment. *)
Lemma onUpload_origin (isLoading : bool) (st : UploadState)
    (ev : UploadEvent) (file : File.t) (flag : bool) :
  In (onUpload file flag) (snd (dispatch isLoading st ev)) ->
  ev = Click AnalyzeButton /\
  selectedFile st = Some file /\ useLLM st = flag /\ isLoading = false.
Proof.
  unfold dispatch.
  destruct (enabled isLoading st (target ev)) eqn:En; [|intros []].
  destruct ev as [| |fs|fs|b|c]; cbn [handle snd In]; try contradiction.
  destruct c; cbn [handle snd In]; try contradiction.
  - intros [Hx|[]]. discriminate.
  - cbn [target] in En. rewrite enabled_AnalyzeButton in En.
    unfold handleUpload.
    destruct (selectedFile st) as [f|]; [|discriminate].
    intros [Hx|[]]. inversion Hx; subst.
    destruct isLoading; [discriminate|]. repeat split.
Qed.

(** C3.  The Analyze button takes clicks exactly when a file is selected and
    no request is in flight.  The upload callback is called by no event
    other than a click on that button, never without a selected file, never
    while loading, and with the current selected file and [useLLM] flag; a
    click on the enabled button does call it. *)
Theorem analyze_enabled_iff (isLoading : bool) (st : UploadState) :
  (enabled isLoading st AnalyzeButton = true <->
   selectedFile st <> None /\ isLoading = false) /\
  (forall ev file flag,
      In (onUpload file flag) (snd (dispatch isLoading st ev)) ->
      ev = Click AnalyzeButton /\
      selectedFile st = Some file /\ useLLM st = flag /\ isLoading = false) /\
  (forall file,
      selectedFile st = Some file -> isLoading = false ->
      dispatch isLoading st (Click AnalyzeButton) = (st, [onUpload file (useLLM st)])).
Proof.
  split; [|split].
  - rewrite enabled_AnalyzeButton.
    destruct (selectedFile st); destruct isLoading; simpl;
      split; intros Hx; try discriminate; try (split; congruence);
      destruct Hx as [H1 H2]; congruence.
  - intros ev file flag. apply onUpload_origin.
  - intros file Hf Hl. unfold dispatch. cbn [target].
    rewrite enabled_AnalyzeButton, Hf, Hl. cbn [negb handle].
    unfold handleUpload. now rewrite Hf.
Qed.

Lemma analyze_enabled_iff_witness :
  In (onUpload sampleFile true)
     (snd (dispatch false
             {| selectedFile := Some sampleFile; useLLM := true; isDragging := false |}
             (Click AnalyzeButton))) /\
  (Click AnalyzeButton = Click AnalyzeButton /\
   Some sampleFile = Some sampleFile /\ true = true /\ false = false).
Proof.
  assert (H : In (onUpload sampleFile true)
     (snd (dispatch false
             {| selectedFile := Some sampleFile; useLLM := true; isDragging := false |}
             (Click AnalyzeButton)))) by (simpl; left; reflexivity).
  split; [exact H|].
  exact (proj1 (proj2 (analyze_enabled_iff false
           {| selectedFile := Some sampleFile; useLLM := true; isDragging := false |}))
           (Click AnalyzeButton) sampleFile true H).
Defined.

(** ** The results widget *)

#[local] Arguments JS.toFixed : simpl never.
#[local] Arguments JS.Number_toString : simpl never.

Lemma headings_elem {E} (tag cls : string) (oc : option E) (cs : list (Node E)) :
  headings (elem tag cls oc cs) =
  ((if (tag =? "h2")%string then [textContent (elem tag cls oc cs)] else []) ++
   flat_map headings cs)%list.
Proof. reflexivity. Qed.

Lemma elementsByTag_elem {E} (t tag cls : string) (oc : option E) (cs : list (Node E)) :
  elementsByTag t (elem tag cls oc cs) =
  ((if (tag =? t)%string then [elem tag cls oc cs] else []) ++
   flat_map (elementsByTag t) cs)%list.
Proof. reflexivity. Qed.

Lemma flat_map_map_nil {A B C} (f : A -> B) (g : B -> list C) (l : list A) :
  (forall x, g (f x) = []) -> flat_map g (map f l) = [].
Proof.
  intros H. induction l as [|x l IH]; [reflexivity|].
  cbn [map flat_map]. now rewrite H, IH.
Qed.

Section ResultsFacts.
Context {host : JSHost} {E : Type}.

Lemma headings_issueCard (issue : QualityIssue.t) :
  headings (@issueCard host E issue) = [].
Proof. reflexivity. Qed.

Lemma headings_statsCell (col : ColumnAnalysis.t) :
  headings (@statsCell host E col) = [].
Proof.
  unfold statsCell.
  destruct (ColumnAnalysis.mean col), (ColumnAnalysis.avg_length col); reflexivity.
Qed.

Lemma headings_columnRow (col : ColumnAnalysis.t) :
  headings (@columnRow host E col) = [].
Proof.
  unfold columnRow, statsCell.
  destruct (ColumnAnalysis.mean col), (ColumnAnalysis.avg_length col); reflexivity.
Qed.

Lemma headings_attributionLine (ins : LLMInsights.t) :
  headings (@attributionLine host E ins) = [].
Proof.
  unfold attributionLine.
  destruct (LLMInsights.model_used ins) as [m|]; [|reflexivity].
  destruct (m =? "")%string; [reflexivity|].
  destruct (LLMInsights.tokens_used ins); reflexivity.
Qed.

Lemma headings_qualityIssuesPanel (issues : list QualityIssue.t) :
  headings (@qualityIssuesPanel host E issues) =
  match issues with
  | [] => []
  | _ :: _ =>
      ["Quality Issues (" ++
       JS.Number_toString (inject_Z (Z.of_nat (List.length issues))) ++ ")"]
  end.
Proof.
  unfold qualityIssuesPanel. destruct issues as [|i issues]; [reflexivity|].
  cbn [List.length Nat.ltb Nat.leb].
  rewrite headings_elem. cbn [flat_map].
  rewrite (headings_elem "div" "space-y-3").
  rewrite (flat_map_map_nil issueCard headings _ headings_issueCard).
  cbn. now rewrite append_nil_r.
Qed.

Lemma headings_columnAnalysis (columns : list ColumnAnalysis.t) :
  headings (@columnAnalysis host E columns) =
  ["Column Analysis (" ++
   JS.Number_toString (inject_Z (Z.of_nat (List.length columns))) ++ ")"].
Proof.
  unfold columnAnalysis.
  rewrite headings_elem. cbn [flat_map].
  rewrite (headings_elem "div" "overflow-x-auto"). cbn [flat_map].
  rewrite (headings_elem "table"). cbn [flat_map].
  rewrite (headings_elem "tbody").
  rewrite (flat_map_map_nil columnRow headings _ headings_columnRow).
  reflexivity.
Qed.

Lemma headings_insightsPanel (llm_insights : option LLMInsights.t) :
  headings (@insightsPanel host E llm_insights) =
  match llm_insights with Some _ => ["AI Insights"] | None => [] end.
Proof.
  destruct llm_insights as [ins|]; [|reflexivity].
  unfold insightsPanel.
  rewrite headings_elem. cbn [flat_map].
  rewrite (headings_elem "div" "flex items-start space-x-3 mb-4").
  cbn [flat_map].
  rewrite (headings_elem "div" "flex-1").
  cbn [flat_map].
  rewrite headings_attributionLine. reflexivity.
Qed.

(** The headings of the report, in order. *)
Lemma headings_ProfileResults (result : ProfileResponse.t) (onReset : E) :
  headings (ProfileResults result onReset) =
  (headings (@qualityIssuesPanel host E (ProfileResponse.quality_issues result)) ++
   headings (@columnAnalysis host E (ProfileResponse.columns result)) ++
   headings (@insightsPanel host E (ProfileResponse.llm_insights result)))%list.
Proof.
  unfold ProfileResults.
  rewrite headings_elem. cbn [flat_map].
  change (headings (header (ProfileResponse.file_name result) onReset))
    with (@nil string).
  change (headings (@basicStats host E (ProfileResponse.basic_stats result)))
    with (@nil string).
  change (headings (@successMessage E)) with (@nil string).
  cbn [app]. now rewrite !app_nil_r.
Qed.

End ResultsFacts.

(** C6.  The report has the AI-insights panel exactly when [llm_insights] is
    present.  With [model_used] undefined the panel has no attribution line
    and still shows the insight text. *)
Theorem insights_panel_iff {host : JSHost} {E : Type}
    (result : ProfileResponse.t) (onReset : E) :
  (In "AI Insights" (headings (ProfileResults result onReset)) <->
   ProfileResponse.llm_insights result <> None) /\
  (insightsPanel (E := E) (ProfileResponse.llm_insights result) = nothing <->
   ProfileResponse.llm_insights result = None) /\
  In (insightsPanel (ProfileResponse.llm_insights result))
     (children (ProfileResults result onReset)) /\
  (forall ins,
      ProfileResponse.llm_insights result = Some ins ->
      LLMInsights.model_used ins = None ->
      elementsByTag "p" (insightsPanel (E := E) (Some ins)) = [] /\
      textContent (insightsPanel (E := E) (Some ins)) =
        "🤖" ++ "AI Insights" ++ LLMInsights.insights ins).
Proof.
  split; [|split; [|split]].
  - rewrite headings_ProfileResults, headings_qualityIssuesPanel,
      headings_columnAnalysis, headings_insightsPanel.
    destruct (ProfileResponse.llm_insights result) as [ins|];
      destruct (ProfileResponse.quality_issues result) as [|i issues];
      cbn; split; intros H; try discriminate; try congruence; auto.
    + destruct H as [H|[]]. discriminate.
    + destruct H as [H|[H|[]]]; discriminate.
  - destruct (ProfileResponse.llm_insights result); cbn;
      split; intros H; congruence.
  - cbn. auto 10.
  - intros ins _ Hm. unfold insightsPanel, attributionLine. rewrite Hm.
    split; [reflexivity|].
    cbn. rewrite !append_nil_r. reflexivity.
Qed.

Lemma insights_panel_iff_witness :
  (ProfileResponse.llm_insights sampleResult = Some anonymousInsights /\
   LLMInsights.model_used anonymousInsights = None) /\
  elementsByTag "p" (@insightsPanel plainHost unit (Some anonymousInsights)) = [].
Proof.
  assert (H1 : ProfileResponse.llm_insights sampleResult = Some anonymousInsights)
    by reflexivity.
  assert (H2 : LLMInsights.model_used anonymousInsights = None) by reflexivity.
  split; [split; assumption|].
  exact (proj1 (proj2 (proj2 (proj2
           (@insights_panel_iff plainHost unit sampleResult tt)))
           anonymousInsights H1 H2)).
Defined.

(** C10 as stated fails: with [model_used] the empty string (defined, but
    falsy) and no [tokens_used], the panel has no attribution line. *)
Lemma attribution_line_empty_model :
  LLMInsights.model_used emptyModelInsights <> None /\
  LLMInsights.tokens_used emptyModelInsights = None /\
  elementsByTag "p" (@insightsPanel plainHost unit (Some emptyModelInsights)) = [] /\
  textContent (@attributionLine plainHost unit emptyModelInsights) = "".
Proof. repeat split. discriminate. Qed.

(** C10, amended.  When [llm_insights] is present with a non-empty
    [model_used] and no [tokens_used], the attribution line is rendered: it
    holds the model name, the separator and the word "tokens" with no number
    before it. *)
Theorem attribution_line_without_tokens {host : JSHost} {E : Type}
    (ins : LLMInsights.t) (model : string) :
  LLMInsights.model_used ins = Some model ->
  model <> "" ->
  LLMInsights.tokens_used ins = None ->
  elementsByTag "p" (insightsPanel (E := E) (Some ins)) =
    [elem "p" "text-sm text-gray-600" None
       [text "Powered by "; text model; text " • "; nothing; text " tokens"]] /\
  textContent (attributionLine (E := E) ins) =
    "Powered by " ++ model ++ " • " ++ " tokens".
Proof.
  intros Hm Hne Ht. unfold insightsPanel, attributionLine.
  rewrite Hm, Ht. apply String.eqb_neq in Hne. rewrite Hne.
  split; [reflexivity|].
  cbn. reflexivity.
Qed.

Lemma attribution_line_without_tokens_witness :
  (LLMInsights.model_used namedModelInsights = Some "claude-x" /\
   "claude-x" <> "" /\
   LLMInsights.tokens_used namedModelInsights = None) /\
  textContent (@attributionLine plainHost unit namedModelInsights) =
    "Powered by claude-x •  tokens".
Proof.
  assert (H1 : LLMInsights.model_used namedModelInsights = Some "claude-x")
    by reflexivity.
  assert (H2 : "claude-x" <> "") by discriminate.
  assert (H3 : LLMInsights.tokens_used namedModelInsights = None) by reflexivity.
  split; [repeat split; assumption|].
  exact (proj2 (@attribution_line_without_tokens plainHost unit
                  namedModelInsights "claude-x" H1 H2 H3)).
Defined.

(** C1 as stated fails: on a column with both a mean and an average length
    the cell shows both, not the mean alone. *)
Lemma stats_cell_shows_both :
  textContent (@statsCell plainHost unit bothStatsColumn) = "μ: 1.50avg len: 3" /\
  @Spec.statsText plainHost bothStatsColumn = "μ: 1.50" /\
  textContent (@statsCell plainHost unit bothStatsColumn) <>
    @Spec.statsText plainHost bothStatsColumn.
Proof.
  split; [vm_compute; reflexivity|].
  split; [vm_compute; reflexivity|].
  vm_compute. discriminate.
Qed.

Lemma flat_map_map_singleton {A B} (f : A -> B) (g : B -> list B) (l : list A) :
  (forall x, g (f x) = [f x]) -> flat_map g (map f l) = map f l.
Proof.
  intros H. induction l as [|x l IH]; [reflexivity|].
  cbn [map flat_map]. now rewrite H, IH.
Qed.

Section TableFacts.
Context {host : JSHost} {E : Type}.

Lemma tbody_of_columnRow (col : ColumnAnalysis.t) :
  elementsByTag "tbody" (@columnRow host E col) = [].
Proof.
  unfold columnRow, statsCell.
  destruct (ColumnAnalysis.mean col), (ColumnAnalysis.avg_length col); reflexivity.
Qed.

Lemma tr_of_columnRow (col : ColumnAnalysis.t) :
  elementsByTag "tr" (@columnRow host E col) = [columnRow col].
Proof.
  unfold columnRow, statsCell.
  destruct (ColumnAnalysis.mean col), (ColumnAnalysis.avg_length col); reflexivity.
Qed.

(** The body rows of the column table are the images of the columns, in
    the order received. *)
Lemma rows_of_columnAnalysis (columns : list ColumnAnalysis.t) :
  flat_map (elementsByTag "tr")
    (elementsByTag "tbody" (@columnAnalysis host E columns)) =
  map columnRow columns.
Proof.
  unfold columnAnalysis.
  rewrite elementsByTag_elem. cbn [flat_map].
  rewrite (elementsByTag_elem "tbody" "div" "overflow-x-auto"). cbn [flat_map].
  rewrite (elementsByTag_elem "tbody" "table"). cbn [flat_map].
  rewrite (elementsByTag_elem "tbody" "tbody").
  rewrite (flat_map_map_nil columnRow (elementsByTag "tbody") _ tbody_of_columnRow).
  cbn. rewrite app_nil_r.
  apply (flat_map_map_singleton columnRow (elementsByTag "tr") _ tr_of_columnRow).
Qed.

End TableFacts.

(** ** toFixed with two and with no decimals *)

Lemma toFixed_below_limit {host : JSHost} (x : Q) (f : nat) :
  (Qabs x < JS.pow10 21)%Q ->
  JS.toFixed x f =
  Spec.sign x ++
  match f with
  | O => JS.decimalDigits (Qfloor (Qabs x * JS.pow10 f + (1 # 2)))
  | S _ =>
      let m := JS.decimalDigits (Qfloor (Qabs x * JS.pow10 f + (1 # 2))) in
      let m := if (String.length m <=? f)%nat
               then JS.zeros (f + 1 - String.length m) ++ m else m in
      substring 0 (String.length m - f) m ++ "." ++
      substring (String.length m - f) f m
  end.
Proof.
  intros Hbig. unfold JS.toFixed, Spec.sign.
  assert (Hb : Qle_bool (JS.pow10 21) (Qabs x) = false).
  { destruct (Qle_bool (JS.pow10 21) (Qabs x)) eqn:E; [|reflexivity].
    apply Qle_bool_iff in E. exfalso. exact (Qlt_not_le _ _ Hbig E). }
  rewrite Hb. destruct f; reflexivity.
Qed.

Lemma scaled_floor_nonneg (y : Q) (f : nat) :
  (0 <= y)%Q -> (0 <= Qfloor (y * JS.pow10 f + (1 # 2)))%Z.
Proof.
  intros H0. change 0%Z with (Qfloor 0). apply Qfloor_resp_le.
  apply Qle_trans with (y * JS.pow10 f)%Q.
  - apply Qmult_le_0_compat; [exact H0|].
    unfold JS.pow10, Qle. cbn [Qnum Qden inject_Z].
    assert (0 < 10 ^ Z.of_nat f)%Z by (apply Z.pow_pos_nonneg; lia). lia.
  - rewrite <- (Qplus_0_r (y * JS.pow10 f)) at 1.
    apply Qplus_le_r. discriminate.
Qed.

Lemma twoDecimals_of_digits (n : Z) :
  (0 <= n)%Z ->
  (let m := JS.decimalDigits n in
   let m := if (String.length m <=? 2)%nat
            then JS.zeros (2 + 1 - String.length m) ++ m else m in
   substring 0 (String.length m - 2) m ++ "." ++
   substring (String.length m - 2) 2 m) = Spec.twoDecimals n.
Proof.
  intros Hn. cbv zeta. unfold Spec.twoDecimals.
  destruct (Z_lt_le_dec n 10) as [H10|H10].
  - rewrite (decimalDigits_digit n) by lia.
    rewrite (Z.div_small n 100), (Z.div_small n 10), (Z.mod_small n 10) by lia.
    rewrite (decimalDigits_digit n) by lia. reflexivity.
  - assert (Hq : (0 <= n / 10)%Z) by (apply Z.div_pos; lia).
    assert (Hr : (0 <= n mod 10 < 10)%Z) by (apply Z.mod_pos_bound; lia).
    rewrite (decimalDigits_step n H10).
    rewrite (decimalDigits_digit (n mod 10) Hr).
    destruct (Z_lt_le_dec n 100) as [H100|H100].
    + assert (Hq10 : (n / 10 < 10)%Z) by (apply Z.div_lt_upper_bound; lia).
      rewrite (decimalDigits_digit (n / 10)) by lia.
      rewrite (Z.div_small n 100), (Z.mod_small (n / 10) 10) by lia.
      rewrite (decimalDigits_digit (n / 10)) by lia. reflexivity.
    + assert (Hq10 : (10 <= n / 10)%Z) by (apply Z.div_le_lower_bound; lia).
      rewrite (decimalDigits_step (n / 10) Hq10).
      rewrite Z.div_div by lia. change (10 * 10)%Z with 100%Z.
      assert (Hr2 : (0 <= (n / 10) mod 10 < 10)%Z) by (apply Z.mod_pos_bound; lia).
      rewrite (decimalDigits_digit ((n / 10) mod 10) Hr2).
      set (a := JS.decimalDigits (n / 100)).
      assert (La : (1 <= String.length a)%nat)
        by (apply decimalDigits_nonempty; apply Z.div_pos; lia).
      set (c1 := JS.digitChar ((n / 10) mod 10)).
      set (c0 := JS.digitChar (n mod 10)).
      rewrite append_assoc. cbn [append].
      set (t := String c1 (String c0 "")).
      assert (Hlen : String.length (a ++ t) = S (S (String.length a)))
        by (rewrite length_append; unfold t; simpl; lia).
      rewrite Hlen.
      assert (Hle : (S (S (String.length a)) <=? 2)%nat = false)
        by (apply Nat.leb_gt; lia).
      rewrite Hle, Hlen.
      replace (S (S (String.length a)) - 2)%nat with (String.length a) by lia.
      rewrite substring_prefix.
      change 2%nat with (String.length t) at 1.
      rewrite substring_suffix. reflexivity.
Qed.

Lemma toFixed_2_below_limit {host : JSHost} (x : Q) :
  (Qabs x < JS.pow10 21)%Q ->
  JS.toFixed x 2 =
  Spec.sign x ++ Spec.twoDecimals (Qfloor (Qabs x * JS.pow10 2 + (1 # 2))).
Proof.
  intros Hbig. rewrite (toFixed_below_limit x 2 Hbig). f_equal.
  apply twoDecimals_of_digits. apply scaled_floor_nonneg. apply Qabs_nonneg.
Qed.

Lemma toFixed_0_below_limit {host : JSHost} (x : Q) :
  (Qabs x < JS.pow10 21)%Q ->
  JS.toFixed x 0 =
  Spec.sign x ++ JS.decimalDigits (Qfloor (Qabs x * JS.pow10 0 + (1 # 2))).
Proof. intros Hbig. exact (toFixed_below_limit x 0 Hbig). Qed.

Lemma nearestHundredth_floor (y : Q) :
  Spec.nearestHundredth y (Qfloor (y * JS.pow10 2 + (1 # 2))).
Proof.
  destruct y as [a b]. unfold Spec.nearestHundredth.
  assert (E : Qfloor ((a # b) * JS.pow10 2 + (1 # 2)) =
              ((200 * a + Zpos b) / (2 * Zpos b))%Z).
  { assert (Q1 : ((a # b) * JS.pow10 2 + (1 # 2) == (200 * a + Zpos b) # (2 * b))%Q).
    { unfold JS.pow10, Qeq, Qmult, Qplus, inject_Z. cbn [Qnum Qden].
      change (10 ^ Z.of_nat 2)%Z with 100%Z. rewrite ?Pos2Z.inj_mul. lia. }
    rewrite Q1. reflexivity. }
  rewrite E.
  set (m := ((200 * a + Zpos b) / (2 * Zpos b))%Z).
  assert (Hm : (2 * Zpos b * m <= 200 * a + Zpos b < 2 * Zpos b * m + 2 * Zpos b)%Z).
  { unfold m. split.
    - apply Z.mul_div_le. lia.
    - pose proof (Z.mod_pos_bound (200 * a + Zpos b) (2 * Zpos b) ltac:(lia)) as B.
      pose proof (Z.div_mod (200 * a + Zpos b) (2 * Zpos b) ltac:(lia)) as Dv.
      lia. }
  apply Qabs_Qle_condition.
  unfold Qle, Qminus, Qdiv, Qmult, Qplus, Qopp, Qinv, inject_Z. cbn [Qnum Qden].
  rewrite ?Pos2Z.inj_mul. split; lia.
Qed.

Lemma nearestUnit_floor (y : Q) :
  Spec.nearestUnit y (Qfloor (y * JS.pow10 0 + (1 # 2))).
Proof.
  destruct y as [a b]. unfold Spec.nearestUnit.
  assert (E : Qfloor ((a # b) * JS.pow10 0 + (1 # 2)) =
              ((2 * a + Zpos b) / (2 * Zpos b))%Z).
  { assert (Q1 : ((a # b) * JS.pow10 0 + (1 # 2) == (2 * a + Zpos b) # (2 * b))%Q).
    { unfold JS.pow10, Qeq, Qmult, Qplus, inject_Z. cbn [Qnum Qden].
      change (10 ^ Z.of_nat 0)%Z with 1%Z. rewrite ?Pos2Z.inj_mul. lia. }
    rewrite Q1. reflexivity. }
  rewrite E.
  set (k := ((2 * a + Zpos b) / (2 * Zpos b))%Z).
  assert (Hk : (2 * Zpos b * k <= 2 * a + Zpos b < 2 * Zpos b * k + 2 * Zpos b)%Z).
  { unfold k. split.
    - apply Z.mul_div_le. lia.
    - pose proof (Z.mod_pos_bound (2 * a + Zpos b) (2 * Zpos b) ltac:(lia)) as B.
      pose proof (Z.div_mod (2 * a + Zpos b) (2 * Zpos b) ltac:(lia)) as Dv.
      lia. }
  apply Qabs_Qle_condition.
  unfold Qle, Qminus, Qplus, Qopp, inject_Z. cbn [Qnum Qden].
  rewrite ?Pos2Z.inj_mul. split; lia.
Qed.

(** At 10^21 and above [toFixed] hands the value to Number::toString: the
    cell then shows the number's plain string form, not two decimals. *)
Lemma stats_cell_huge_mean {host : JSHost} :
  textContent (statsCell (E := unit) hugeMeanColumn) =
  "μ: " ++ shortestRoundTrip (inject_Z (10 ^ 21)).
Proof.
  assert (T : JS.toFixed (inject_Z (10 ^ 21)) 2 =
              shortestRoundTrip (inject_Z (10 ^ 21))) by (vm_compute; reflexivity).
  unfold statsCell, hugeMeanColumn.
  cbn [ColumnAnalysis.mean ColumnAnalysis.avg_length textContent append].
  now rewrite T, !append_nil_r.
Qed.


(** C1, amended.  In every row of the column table the stats cell shows the
    mean when [mean] is present and, independently of that, the average
    length when [avg_length] is present: both when both are present (the
    mean first), nothing when neither is.  The mean is formatted by
    [toFixed(2)] and the average length by [toFixed(0)]: for a value of
    magnitude below 10^21 that is its sign and its magnitude rounded to the
    nearest hundredth, written with two decimal places, respectively rounded
    to the nearest integer, written with no decimal point. *)
Theorem stats_cell_independent {host : JSHost} {E : Type}
    (columns : list ColumnAnalysis.t) (col : ColumnAnalysis.t) :
  In col columns ->
  (exists row,
      In row (flat_map (elementsByTag "tr")
                (elementsByTag "tbody" (columnAnalysis (E := E) columns))) /\
      nth_error (children row) 4 = Some (statsCell col)) /\
  textContent (statsCell (E := E) col) =
    match ColumnAnalysis.mean col with
    | Some mean => "μ: " ++ JS.toFixed mean 2
    | None => ""
    end ++
    match ColumnAnalysis.avg_length col with
    | Some avg_length => "avg len: " ++ JS.toFixed avg_length 0
    | None => ""
    end /\
  (forall mean,
      ColumnAnalysis.mean col = Some mean ->
      (Qabs mean < JS.pow10 21)%Q ->
      exists m,
        Spec.nearestHundredth (Qabs mean) m /\
        JS.toFixed mean 2 = Spec.sign mean ++ Spec.twoDecimals m) /\
  (forall avg_length,
      ColumnAnalysis.avg_length col = Some avg_length ->
      (Qabs avg_length < JS.pow10 21)%Q ->
      exists k,
        Spec.nearestUnit (Qabs avg_length) k /\
        JS.toFixed avg_length 0 = Spec.sign avg_length ++ JS.decimalDigits k).
Proof.
  intros Hin. split; [|split; [|split]].
  - exists (columnRow col). split; [|reflexivity].
    rewrite rows_of_columnAnalysis. now apply in_map.
  - unfold statsCell.
    destruct (ColumnAnalysis.mean col), (ColumnAnalysis.avg_length col);
      cbn; rewrite ?append_nil_r; reflexivity.
  - intros mean _ Hbig.
    exists (Qfloor (Qabs mean * JS.pow10 2 + (1 # 2))). split.
    + apply nearestHundredth_floor.
    + apply toFixed_2_below_limit. exact Hbig.
  - intros avg_length _ Hbig.
    exists (Qfloor (Qabs avg_length * JS.pow10 0 + (1 # 2))). split.
    + apply nearestUnit_floor.
    + apply toFixed_0_below_limit. exact Hbig.
Qed.

Lemma stats_cell_independent_witness :
  (In bothStatsColumn [bothStatsColumn] /\
   ColumnAnalysis.mean bothStatsColumn = Some (3 # 2) /\
   (Qabs (3 # 2) < JS.pow10 21)%Q) /\
  textContent (@statsCell plainHost unit bothStatsColumn) =
    ("μ: " ++ @JS.toFixed plainHost (3 # 2) 2) ++
    ("avg len: " ++ @JS.toFixed plainHost 3 0) /\
  exists m,
    Spec.nearestHundredth (Qabs (3 # 2)) m /\
    @JS.toFixed plainHost (3 # 2) 2 = Spec.sign (3 # 2) ++ Spec.twoDecimals m.
Proof.
  assert (H : In bothStatsColumn [bothStatsColumn]) by (left; reflexivity).
  assert (Hm : ColumnAnalysis.mean bothStatsColumn = Some (3 # 2)) by reflexivity.
  assert (Hb : (Qabs (3 # 2) < JS.pow10 21)%Q) by reflexivity.
  split; [exact (conj H (conj Hm Hb))|].
  split.
  - exact (proj1 (proj2 (@stats_cell_independent plainHost unit
                           [bothStatsColumn] bothStatsColumn H))).
  - exact (proj1 (proj2 (proj2 (@stats_cell_independent plainHost unit
                                  [bothStatsColumn] bothStatsColumn H)))
             (3 # 2) Hm Hb).
Defined.

(** ** The API client *)

(** C2.  [uploadAndProfile] issues one multipart POST whose form holds the
    file under [file], the flag as "true" or "false" under [use_llm], and a
    [description] entry only when a description is given.  On a 2xx reply it
    resolves with the parsed body; on any other status and on a transport
    failure it rejects with an error carrying the message. *)
Theorem uploadAndProfile_spec {D : Type} (env : option string)
    (http : Axios.Request -> Axios.HttpOutcome D)
    (file : File.t) (flag : bool) (description : option string) :
  exists request,
    Axios.method request = "POST" /\
    Axios.url request = (API_URL env ++ "/api/v1") ++ "/data/upload" /\
    Axios.headers request = [("Content-Type", "multipart/form-data")] /\
    Axios.body request =
      ([("file", FileValue file);
        ("use_llm", StringValue (if flag then "true" else "false"))] ++
       match description with
       | Some d => if (d =? "")%string then [] else [("description", StringValue d)]
       | None => []
       end)%list /\
    (forall v, In ("description", v) (Axios.body request) ->
               exists d, description = Some d /\ v = StringValue d) /\
    match http request with
    | Axios.HttpReply code body =>
        if (200 <=? code)%Z && (code <? 300)%Z
        then uploadAndProfile env http file (Some flag) description = Fulfilled body
        else exists e,
            uploadAndProfile env http file (Some flag) description = Rejected e /\
            message e = "Request failed with status code " ++
                        (if (code <? 0)%Z then "-" else "") ++
                        JS.decimalDigits (Z.abs code)
    | Axios.NetworkFailure msg =>
        uploadAndProfile env http file (Some flag) description =
        Rejected {| message := msg |}
    end.
Proof.
  set (formData :=
         ([("file", FileValue file);
           ("use_llm", StringValue (if flag then "true" else "false"))] ++
          match description with
          | Some d => if (d =? "")%string then [] else [("description", StringValue d)]
          | None => []
          end)%list).
  exists {| Axios.method := "POST";
            Axios.url := (API_URL env ++ "/api/v1") ++ "/data/upload";
            Axios.headers := [("Content-Type", "multipart/form-data")];
            Axios.body := formData |}.
  cbn [Axios.method Axios.url Axios.headers Axios.body].
  repeat (split; [reflexivity|]).
  split.
  - intros v. unfold formData.
    destruct description as [d|]; [destruct (d =? "")%string|];
      cbn [app In]; intros [H|[H|H]]; try discriminate; try contradiction.
    destruct H as [H|[]]. inversion H. now exists d.
  - assert (Hform :
      (match description with
       | Some d =>
           if (d =? "")%string
           then FormData_append "use_llm" (StringValue (Boolean_toString flag))
                  (FormData_append "file" (FileValue file) [])
           else FormData_append "description" (StringValue d)
                  (FormData_append "use_llm" (StringValue (Boolean_toString flag))
                     (FormData_append "file" (FileValue file) []))
       | None => FormData_append "use_llm" (StringValue (Boolean_toString flag))
                   (FormData_append "file" (FileValue file) [])
       end) = formData).
    { unfold formData, FormData_append, Boolean_toString.
      destruct description as [d|]; [destruct (d =? "")%string|]; reflexivity. }
    unfold uploadAndProfile, Axios.post, await.
    rewrite Hform.
    cbn [api Axios.baseURL Axios.defaultHeaders Axios.mergeHeaders
         filter existsb fst snd String.eqb Ascii.eqb Bool.eqb negb orb app].
    destruct (http _) as [msg|code body]; [reflexivity|].
    unfold Axios.validateStatus.
    destruct ((200 <=? code)%Z && (code <? 300)%Z); [reflexivity|].
    eexists. split; reflexivity.
Qed.

Lemma uploadAndProfile_spec_witness :
  exists request,
    In ("description", StringValue "q1 sales") (Axios.body request) /\
    exists d, Some "q1 sales" = Some d /\ StringValue "q1 sales" = StringValue d.
Proof.
  destruct (@uploadAndProfile_spec ProfileResponse.t None
              (fun _ => Axios.HttpReply 200 sampleResult)
              sampleFile true (Some "q1 sales"))
    as [request [_ [_ [_ [Hbody [Honly _]]]]]].
  exists request.
  assert (H : In ("description", StringValue "q1 sales") (Axios.body request)).
  { rewrite Hbody. cbn. right. right. left. reflexivity. }
  split; [exact H|].
  exact (Honly (StringValue "q1 sales") H).
Defined.

(** ** The dashboard page *)

Section DashboardFacts.
Context {host : JSHost}.
Variable env : option string.

Lemma rendered_widget (s : DashboardState) :
  reachable env s ->
  match profileResult s with
  | Some _ => fileUpload s = None
  | None => fileUpload s <> None
  end.
Proof.
  assert (R : forall x,
             match profileResult (render x) with
             | Some _ => fileUpload (render x) = None
             | None => fileUpload (render x) <> None
             end).
  { intros x. unfold render. cbn [profileResult fileUpload].
    destruct (profileResult x); [reflexivity|].
    destruct (fileUpload x); discriminate. }
  intros H. destruct H; apply R.
Qed.

Lemma runEffects_no_upload (effects : list UploadEffect) (s : DashboardState) :
  (forall file flag, ~ In (onUpload file flag) effects) ->
  fold_left runEffect effects s = s.
Proof.
  revert s. induction effects as [|eff effects IH]; intros s H; [reflexivity|].
  cbn [fold_left]. destruct eff as [file flag|].
  - exfalso. apply (H file flag). left. reflexivity.
  - cbn [runEffect]. apply IH. intros file flag Hin.
    apply (H file flag). right. exact Hin.
Qed.

(** While a request is in flight no widget event starts another one: the
    mutation is left as it is. *)
Lemma one_request_in_flight (s : DashboardState) (e : UploadEvent) :
  Mutation.isPending (uploadMutation s) = true ->
  uploadMutation (step env s (Widget e)) = uploadMutation s.
Proof.
  intros Hp. unfold step. cbn [render uploadMutation].
  destruct (fileUpload s) as [w|]; [|reflexivity].
  rewrite Hp.
  destruct (dispatch true w e) as [w' effects] eqn:Hd.
  rewrite runEffects_no_upload; [reflexivity|].
  intros file flag Hin.
  destruct (onUpload_origin true w e file flag) as [_ [_ [_ C]]].
  - rewrite Hd. exact Hin.
  - discriminate.
Qed.

End DashboardFacts.

Section DashboardReset.
Context {host : JSHost}.
Variable env : option string.

(** C8.  Both a reset and the start of an upload set the page's result to
    none.  In any state the page can reach that shows a result, Reset
    brings the page back to its initial state: the upload view with a
    freshly mounted widget (no selected file), not loading, no error. *)
Theorem reset_returns_to_initial (s : DashboardState) :
  profileResult (handleReset s) = None /\
  (forall file flag, profileResult (handleFileUpload file flag s) = None) /\
  (forall result,
      reachable env s -> profileResult s = Some result ->
      step env s ResetClick = initialDashboard /\
      view (step env s ResetClick) = UploadView initialUploadState false None).
Proof.
  split; [reflexivity|]. split; [reflexivity|].
  intros result Hr Hs.
  pose proof (rendered_widget env s Hr) as Hw. rewrite Hs in Hw.
  assert (Hstep : step env s ResetClick = initialDashboard).
  { unfold step. rewrite Hs. unfold handleReset, render.
    cbn [setProfileResult setUploadMutation profileResult uploadMutation fileUpload].
    rewrite Hw. reflexivity. }
  split; [exact Hstep|]. rewrite Hstep. reflexivity.
Qed.

End DashboardReset.

(** A successful upload reaches the results view, and Reset then leaves the
    initial page. *)
Lemma reset_returns_to_initial_witness :
  let s :=
    step None
      (step None
         (step None initialDashboard (Widget (Drop [sampleFile; otherFile])))
         (Widget (Click AnalyzeButton)))
      (Settles (Axios.HttpReply 200 (Some sampleResult))) in
  (reachable None s /\ profileResult s = Some sampleResult) /\
  step None s ResetClick = initialDashboard.
Proof.
  intros s.
  assert (Hr : reachable None s) by (repeat apply reachable_step; apply reachable_initial).
  assert (Hs : profileResult s = Some sampleResult) by reflexivity.
  split; [split; assumption|].
  exact (proj1 (proj2 (proj2 (@reset_returns_to_initial plainHost None s))
                  sampleResult Hr Hs)).
Defined.

(** * Further properties *)

(** ** The upload widget: what each event can change *)

(** X1.  While a request is loading the three buttons are disabled: a
    click on Select File, Analyze or Cancel is not delivered, so it changes
    nothing, does not call [onUpload] and does not open the file picker.
    (The checkbox, the drop zone and the file input stay live.) *)
Theorem loading_disables_buttons (st : UploadState) (c : Control) :
  c = SelectFileButton \/ c = AnalyzeButton \/ c = CancelButton ->
  enabled true st c = false /\
  dispatch true st (Click c) = (st, []).
Proof.
  intros [-> | [-> | ->]]; unfold dispatch, enabled, controls; cbn [target];
    destruct (selectedFile st); split; reflexivity.
Qed.

Lemma loading_disables_buttons_witness :
  (CancelButton = SelectFileButton \/ CancelButton = AnalyzeButton \/
   CancelButton = CancelButton) /\
  dispatch true
    {| selectedFile := Some sampleFile; useLLM := true; isDragging := false |}
    (Click CancelButton) =
  ({| selectedFile := Some sampleFile; useLLM := true; isDragging := false |}, []).
Proof.
  assert (H : CancelButton = SelectFileButton \/ CancelButton = AnalyzeButton \/
              CancelButton = CancelButton) by (right; right; reflexivity).
  split; [exact H|].
  exact (proj2 (loading_disables_buttons
                  {| selectedFile := Some sampleFile; useLLM := true;
                     isDragging := false |} CancelButton H)).
Defined.

Lemma dispatch_cases (isLoading : bool) (st : UploadState) (ev : UploadEvent) :
  dispatch isLoading st ev = (st, []) \/ dispatch isLoading st ev = handle ev st.
Proof.
  unfold dispatch. destruct (enabled isLoading st (target ev)); auto.
Qed.

Lemma enabled_LLMCheckbox (isLoading : bool) (st : UploadState) :
  enabled isLoading st LLMCheckbox =
  match selectedFile st with Some _ => true | None => false end.
Proof.
  unfold enabled, controls. destruct (selectedFile st); reflexivity.
Qed.

Lemma enabled_CancelButton (isLoading : bool) (st : UploadState) :
  enabled isLoading st CancelButton =
  match selectedFile st with Some _ => negb isLoading | None => false end.
Proof.
  unfold enabled, controls.
  destruct (selectedFile st); destruct isLoading; reflexivity.
Qed.

(** X2.  The [useLLM] flag changes only through the checkbox, and the
    checkbox exists only while a file is selected. *)
Theorem useLLM_changes_only_by_checkbox (isLoading : bool) (st : UploadState)
    (ev : UploadEvent) :
  useLLM (fst (dispatch isLoading st ev)) <> useLLM st ->
  exists checked,
    ev = Check checked /\ checked = negb (useLLM st) /\ selectedFile st <> None.
Proof.
  intros Hne.
  destruct ev as [| |fs|fs|b|c].
  - exfalso. apply Hne. destruct (dispatch_cases isLoading st DragOver) as [H|H];
      rewrite H; reflexivity.
  - exfalso. apply Hne. destruct (dispatch_cases isLoading st DragLeave) as [H|H];
      rewrite H; reflexivity.
  - exfalso. apply Hne. destruct (dispatch_cases isLoading st (Drop fs)) as [H|H];
      rewrite H; [reflexivity|]. destruct fs; reflexivity.
  - exfalso. apply Hne. destruct (dispatch_cases isLoading st (Change fs)) as [H|H];
      rewrite H; [reflexivity|]. destruct fs as [[|f fs]|]; reflexivity.
  - exists b. split; [reflexivity|].
    unfold dispatch in Hne. cbn [target] in Hne.
    rewrite enabled_LLMCheckbox in Hne.
    destruct (selectedFile st) as [f|]; cbn [fst handle setUseLLM useLLM] in Hne.
    + split; [|discriminate]. destruct b, (useLLM st); try reflexivity; congruence.
    + congruence.
  - exfalso. apply Hne. destruct (dispatch_cases isLoading st (Click c)) as [H|H];
      rewrite H; [reflexivity|]. destruct c; reflexivity.
Qed.

Lemma useLLM_changes_only_by_checkbox_witness :
  useLLM (fst (dispatch true
                 {| selectedFile := Some sampleFile; useLLM := true; isDragging := false |}
                 (Check false))) <> true /\
  exists checked,
    Check false = Check checked /\ checked = negb true /\ Some sampleFile <> None.
Proof.
  assert (H : useLLM (fst (dispatch true
                 {| selectedFile := Some sampleFile; useLLM := true; isDragging := false |}
                 (Check false))) <> true) by (cbn; discriminate).
  split; [exact H|].
  exact (useLLM_changes_only_by_checkbox true
           {| selectedFile := Some sampleFile; useLLM := true; isDragging := false |}
           (Check false) H).
Defined.

(** X3.  The selected file changes only when a drop or a file-picker change
    brings at least one file (the new value is the first of them), or when
    Cancel is clicked while nothing is loading (the new value is none). *)
Theorem selectedFile_changes_only_by (isLoading : bool) (st : UploadState)
    (ev : UploadEvent) :
  selectedFile (fst (dispatch isLoading st ev)) <> selectedFile st ->
  (exists file0 others,
      (ev = Drop (file0 :: others) \/ ev = Change (Some (file0 :: others))) /\
      selectedFile (fst (dispatch isLoading st ev)) = Some file0) \/
  (ev = Click CancelButton /\ isLoading = false /\
   selectedFile (fst (dispatch isLoading st ev)) = None).
Proof.
  intros Hne.
  destruct ev as [| |fs|fs|b|c].
  - exfalso. apply Hne. destruct (dispatch_cases isLoading st DragOver) as [H|H];
      rewrite H; reflexivity.
  - exfalso. apply Hne. destruct (dispatch_cases isLoading st DragLeave) as [H|H];
      rewrite H; reflexivity.
  - unfold dispatch in *. cbn [target] in *. rewrite enabled_DropZone in *.
    destruct fs as [|f fs]; [exfalso; apply Hne; reflexivity|].
    left. exists f, fs. split; [left|]; reflexivity.
  - unfold dispatch in *. cbn [target] in *. rewrite enabled_FileInput in *.
    destruct fs as [[|f fs]|]; try (exfalso; apply Hne; reflexivity).
    left. exists f, fs. split; [right|]; reflexivity.
  - exfalso. apply Hne. destruct (dispatch_cases isLoading st (Check b)) as [H|H];
      rewrite H; reflexivity.
  - destruct c;
      try (exfalso; apply Hne;
           match goal with
           | |- context [dispatch ?l ?s ?e] =>
               destruct (dispatch_cases l s e) as [H|H]; rewrite H; reflexivity
           end).
    right. unfold dispatch in *. cbn [target] in *.
    rewrite enabled_CancelButton in *.
    destruct (selectedFile st) as [f|] eqn:Hs;
      [|exfalso; apply Hne; cbn; now rewrite Hs].
    destruct isLoading; [exfalso; apply Hne; cbn; now rewrite Hs|].
    repeat split.
Qed.

Lemma selectedFile_changes_only_by_witness :
  selectedFile (fst (dispatch false
                       {| selectedFile := Some sampleFile; useLLM := true;
                          isDragging := false |}
                       (Click CancelButton))) <> Some sampleFile /\
  selectedFile (fst (dispatch false
                       {| selectedFile := Some sampleFile; useLLM := true;
                          isDragging := false |}
                       (Click CancelButton))) = None.
Proof.
  assert (H : selectedFile (fst (dispatch false
                       {| selectedFile := Some sampleFile; useLLM := true;
                          isDragging := false |}
                       (Click CancelButton))) <> Some sampleFile)
    by (cbn; discriminate).
  split; [exact H|].
  destruct (selectedFile_changes_only_by false
              {| selectedFile := Some sampleFile; useLLM := true; isDragging := false |}
              (Click CancelButton) H) as [[f [fs [[E|E] _]]]|[_ [_ R]]];
    [discriminate E | discriminate E | exact R].
Defined.

(** X4.  Cancel does not reset the AI toggle: after unchecking or checking
    the box, cancelling, and choosing another file, Analyze uploads the new
    file with the flag chosen before the cancel. *)
Theorem toggle_survives_cancel (st : UploadState) (file : File.t)
    (checked : bool) (file' : File.t) (others : list File.t) :
  selectedFile st = Some file ->
  let st1 := fst (dispatch false st (Check checked)) in
  let st2 := fst (dispatch false st1 (Click CancelButton)) in
  let st3 := fst (dispatch false st2 (Drop (file' :: others))) in
  selectedFile st2 = None /\
  enabled false st2 AnalyzeButton = false /\
  snd (dispatch false st3 (Click AnalyzeButton)) = [onUpload file' checked].
Proof.
  intros Hs. unfold dispatch. cbn [target].
  rewrite enabled_LLMCheckbox, Hs. cbn [fst handle].
  rewrite enabled_CancelButton. cbn [setUseLLM selectedFile]. rewrite Hs.
  cbn. repeat split.
Qed.

Lemma toggle_survives_cancel_witness :
  selectedFile {| selectedFile := Some sampleFile; useLLM := true; isDragging := false |}
    = Some sampleFile /\
  snd (dispatch false
         (fst (dispatch false
                 (fst (dispatch false
                         (fst (dispatch false
                                 {| selectedFile := Some sampleFile; useLLM := true;
                                    isDragging := false |}
                                 (Check false)))
                         (Click CancelButton)))
                 (Drop [otherFile])))
         (Click AnalyzeButton)) = [onUpload otherFile false].
Proof.
  assert (H : selectedFile {| selectedFile := Some sampleFile; useLLM := true;
                              isDragging := false |} = Some sampleFile)
    by reflexivity.
  split; [exact H|].
  exact (proj2 (proj2 (toggle_survives_cancel
                  {| selectedFile := Some sampleFile; useLLM := true;
                     isDragging := false |}
                  sampleFile false otherFile [] H))).
Defined.

(** ** formatFileSize at the unit boundary *)

(** X5.  The last 51 byte counts below one mebibyte round up to 1024.0 and
    are still shown in KB: the unit is chosen before rounding. *)
Theorem formatFileSize_rounds_up_to_1024_KB {host : JSHost} (n : Z) :
  (1048525 <= n < 1048576)%Z ->
  formatFileSize (inject_Z n) = "1024.0 KB".
Proof.
  intros [Hlo Hhi]. unfold formatFileSize.
  change 1024%Q with (inject_Z 1024).
  change (inject_Z 1024 * inject_Z 1024)%Q with (inject_Z 1048576).
  assert (L1 : JS.ltb (inject_Z n) (inject_Z 1024) = false)
    by (apply ltb_false_iff; unfold Qle; simpl; lia).
  assert (L2 : JS.ltb (inject_Z n) (inject_Z 1048576) = true)
    by (apply ltb_true_iff; unfold Qlt; simpl; lia).
  rewrite L1, L2.
  rewrite toFixed_1_nonneg.
  - rewrite (tenths_of_ratio n 1024).
    assert (E : ((20 * n + 1024) / (2 * 1024) = 10240)%Z).
    { symmetry. apply Z.div_unique with (r := (20 * n + 1024 - 2048 * 10240)%Z); lia. }
    rewrite E. vm_compute. reflexivity.
  - apply (ratio_nonneg n 1024). lia.
  - apply (ratio_small n 1024). unfold JS.MAX_SAFE_INTEGER. simpl. lia.
Qed.

Lemma formatFileSize_rounds_up_to_1024_KB_witness :
  (1048525 <= 1048575 < 1048576)%Z /\
  @formatFileSize plainHost (inject_Z 1048575) = "1024.0 KB".
Proof.
  assert (H : (1048525 <= 1048575 < 1048576)%Z) by lia.
  split; [exact H|].
  exact (@formatFileSize_rounds_up_to_1024_KB plainHost 1048575 H).
Defined.

(** ** The results widget: sections, lists and actions *)

Lemma elementsByClassPrefix_elem {E} (pre tag cls : string) (oc : option E)
    (cs : list (Node E)) :
  elementsByClassPrefix pre (elem tag cls oc cs) =
  ((if startsWith cls pre then [elem tag cls oc cs] else []) ++
   flat_map (elementsByClassPrefix pre) cs)%list.
Proof. reflexivity. Qed.

Lemma callbacks_elem {E} (tag cls : string) (oc : option E) (cs : list (Node E)) :
  callbacks (elem tag cls oc cs) =
  (match oc with Some e => [e] | None => [] end ++ flat_map callbacks cs)%list.
Proof. reflexivity. Qed.

Ltac by_cases_of_options :=
  repeat match goal with
         | |- context [match ?o with Some _ => _ | None => _ end] => destruct o
         | |- context [if (?m =? "")%string then _ else _] => destruct (m =? "")%string
         end;
  reflexivity.

Section ReportFacts.
Context {host : JSHost} {E : Type}.

Lemma cards_of_issueCard (issue : QualityIssue.t) :
  elementsByClassPrefix cardClass (@issueCard host E issue) = [issueCard issue].
Proof. reflexivity. Qed.

Lemma cards_of_columnRow (col : ColumnAnalysis.t) :
  elementsByClassPrefix cardClass (@columnRow host E col) = [].
Proof. unfold columnRow, statsCell. by_cases_of_options. Qed.

Lemma cards_of_insightsPanel (llm_insights : option LLMInsights.t) :
  elementsByClassPrefix cardClass (@insightsPanel host E llm_insights) = [].
Proof. unfold insightsPanel, attributionLine. by_cases_of_options. Qed.

Lemma cards_of_columnAnalysis (columns : list ColumnAnalysis.t) :
  elementsByClassPrefix cardClass (@columnAnalysis host E columns) = [].
Proof.
  unfold columnAnalysis.
  rewrite elementsByClassPrefix_elem. cbn [flat_map].
  rewrite (elementsByClassPrefix_elem cardClass "div" "overflow-x-auto").
  cbn [flat_map].
  rewrite (elementsByClassPrefix_elem cardClass "table"). cbn [flat_map].
  rewrite (elementsByClassPrefix_elem cardClass "tbody").
  rewrite (flat_map_map_nil columnRow (elementsByClassPrefix cardClass) _
             cards_of_columnRow).
  reflexivity.
Qed.

Lemma cards_of_qualityIssuesPanel (issues : list QualityIssue.t) :
  elementsByClassPrefix cardClass (@qualityIssuesPanel host E issues) =
  map issueCard issues.
Proof.
  unfold qualityIssuesPanel. destruct issues as [|i issues]; [reflexivity|].
  cbn [List.length Nat.ltb Nat.leb].
  rewrite elementsByClassPrefix_elem. cbn [flat_map].
  rewrite (elementsByClassPrefix_elem cardClass "div" "space-y-3").
  rewrite (flat_map_map_singleton issueCard (elementsByClassPrefix cardClass) _
             cards_of_issueCard).
  cbn. now rewrite app_nil_r.
Qed.

Lemma tbody_of_issueCard (issue : QualityIssue.t) :
  elementsByTag "tbody" (@issueCard host E issue) = [].
Proof. reflexivity. Qed.

Lemma tbody_of_qualityIssuesPanel (issues : list QualityIssue.t) :
  elementsByTag "tbody" (@qualityIssuesPanel host E issues) = [].
Proof.
  unfold qualityIssuesPanel. destruct issues as [|i issues]; [reflexivity|].
  cbn [List.length Nat.ltb Nat.leb].
  rewrite elementsByTag_elem. cbn [flat_map].
  rewrite (elementsByTag_elem "tbody" "div" "space-y-3").
  rewrite (flat_map_map_nil issueCard (elementsByTag "tbody") _ tbody_of_issueCard).
  reflexivity.
Qed.

Lemma tbody_of_insightsPanel (llm_insights : option LLMInsights.t) :
  elementsByTag "tbody" (@insightsPanel host E llm_insights) = [].
Proof. unfold insightsPanel, attributionLine. by_cases_of_options. Qed.

Lemma tbody_of_columnAnalysis (columns : list ColumnAnalysis.t) :
  elementsByTag "tbody" (@columnAnalysis host E columns) =
  [elem "tbody" "bg-white divide-y divide-gray-200" None (map columnRow columns)].
Proof.
  unfold columnAnalysis.
  rewrite elementsByTag_elem. cbn [flat_map].
  rewrite (elementsByTag_elem "tbody" "div" "overflow-x-auto"). cbn [flat_map].
  rewrite (elementsByTag_elem "tbody" "table"). cbn [flat_map].
  rewrite (elementsByTag_elem "tbody" "tbody").
  rewrite (flat_map_map_nil columnRow (elementsByTag "tbody") _ tbody_of_columnRow).
  reflexivity.
Qed.

Lemma callbacks_of_issueCard (issue : QualityIssue.t) :
  callbacks (@issueCard host E issue) = [].
Proof. reflexivity. Qed.

Lemma callbacks_of_columnRow (col : ColumnAnalysis.t) :
  callbacks (@columnRow host E col) = [].
Proof. unfold columnRow, statsCell. by_cases_of_options. Qed.

Lemma callbacks_of_insightsPanel (llm_insights : option LLMInsights.t) :
  callbacks (@insightsPanel host E llm_insights) = [].
Proof. unfold insightsPanel, attributionLine. by_cases_of_options. Qed.

Lemma callbacks_of_qualityIssuesPanel (issues : list QualityIssue.t) :
  callbacks (@qualityIssuesPanel host E issues) = [].
Proof.
  unfold qualityIssuesPanel. destruct issues as [|i issues]; [reflexivity|].
  cbn [List.length Nat.ltb Nat.leb].
  rewrite callbacks_elem. cbn [flat_map].
  rewrite (callbacks_elem "div" "space-y-3").
  rewrite (flat_map_map_nil issueCard callbacks _ callbacks_of_issueCard).
  reflexivity.
Qed.

Lemma callbacks_of_columnAnalysis (columns : list ColumnAnalysis.t) :
  callbacks (@columnAnalysis host E columns) = [].
Proof.
  unfold columnAnalysis.
  rewrite callbacks_elem. cbn [flat_map].
  rewrite (callbacks_elem "div" "overflow-x-auto"). cbn [flat_map].
  rewrite (callbacks_elem "table"). cbn [flat_map].
  rewrite (callbacks_elem "tbody").
  rewrite (flat_map_map_nil columnRow callbacks _ callbacks_of_columnRow).
  reflexivity.
Qed.

End ReportFacts.

(** X6.  The report's headings are, in this order: "Quality Issues (n)" when
    there is at least one issue (and not otherwise), "Column Analysis (k)"
    always, "AI Insights" when insights are present (and not otherwise); n
    and k are the lengths of the two lists. *)
Theorem report_headings {host : JSHost} {E : Type}
    (result : ProfileResponse.t) (onReset : E) :
  headings (ProfileResults result onReset) =
  (match ProfileResponse.quality_issues result with
   | [] => []
   | _ :: _ =>
       [("Quality Issues (" ++
         JS.Number_toString
           (inject_Z (Z.of_nat (List.length (ProfileResponse.quality_issues result)))) ++
         ")")%string]
   end ++
   [("Column Analysis (" ++
     JS.Number_toString
       (inject_Z (Z.of_nat (List.length (ProfileResponse.columns result)))) ++
     ")")%string] ++
   match ProfileResponse.llm_insights result with
   | Some _ => ["AI Insights"]
   | None => []
   end)%list.
Proof.
  rewrite headings_ProfileResults, headings_qualityIssuesPanel,
    headings_columnAnalysis, headings_insightsPanel.
  reflexivity.
Qed.

(** X7.  The issue cards of the report are the received issues, one card
    each, in the order received (no sorting, no merging); every card carries
    the colour classes of its own severity. *)
Theorem issue_cards_in_order {host : JSHost} {E : Type}
    (result : ProfileResponse.t) (onReset : E) :
  elementsByClassPrefix cardClass (ProfileResults result onReset) =
    map issueCard (ProfileResponse.quality_issues result) /\
  map className (elementsByClassPrefix cardClass (ProfileResults result onReset)) =
    map (fun issue => cardClass ++ getSeverityColor (QualityIssue.severity issue))
        (ProfileResponse.quality_issues result).
Proof.
  assert (Hcards :
    elementsByClassPrefix cardClass (ProfileResults result onReset) =
    map (@issueCard host E) (ProfileResponse.quality_issues result)).
  { unfold ProfileResults.
    rewrite elementsByClassPrefix_elem. cbn [flat_map].
    rewrite cards_of_qualityIssuesPanel, cards_of_columnAnalysis,
      cards_of_insightsPanel.
    cbn. now rewrite !app_nil_r. }
  split; [exact Hcards|].
  rewrite Hcards, map_map. reflexivity.
Qed.

(** X8.  The body of the column table has one row per received column, in
    the order received; a row starts with the column's name. *)
Theorem column_rows_in_order {host : JSHost} {E : Type}
    (result : ProfileResponse.t) (onReset : E) :
  flat_map (elementsByTag "tr")
    (elementsByTag "tbody" (ProfileResults result onReset)) =
    map columnRow (ProfileResponse.columns result) /\
  map (fun row => textContent (hd nothing (children row)))
    (flat_map (elementsByTag "tr")
       (elementsByTag "tbody" (ProfileResults result onReset))) =
    map ColumnAnalysis.name (ProfileResponse.columns result).
Proof.
  assert (Hrows :
    flat_map (elementsByTag "tr")
      (elementsByTag "tbody" (ProfileResults result onReset)) =
    map (@columnRow host E) (ProfileResponse.columns result)).
  { unfold ProfileResults.
    rewrite elementsByTag_elem. cbn [flat_map].
    rewrite tbody_of_qualityIssuesPanel, tbody_of_insightsPanel.
    change (elementsByTag "tbody" (header (ProfileResponse.file_name result) onReset))
      with (@nil (Node E)).
    change (elementsByTag "tbody"
              (@basicStats host E (ProfileResponse.basic_stats result)))
      with (@nil (Node E)).
    change (elementsByTag "tbody" (@successMessage E)) with (@nil (Node E)).
    cbn [app String.eqb Ascii.eqb Bool.eqb].
    rewrite app_nil_r.
    apply rows_of_columnAnalysis. }
  split; [exact Hrows|].
  rewrite Hrows, map_map.
  apply map_ext. intros col. cbn. apply append_nil_r.
Qed.

(** X9.  The only action in the report is the header button, bound to the
    reset callback; nothing else in it can be clicked. *)
Theorem only_action_is_reset {host : JSHost} {E : Type}
    (result : ProfileResponse.t) (onReset : E) :
  callbacks (ProfileResults result onReset) = [onReset].
Proof.
  unfold ProfileResults.
  rewrite callbacks_elem. cbn [flat_map].
  rewrite callbacks_of_qualityIssuesPanel, callbacks_of_columnAnalysis,
    callbacks_of_insightsPanel.
  reflexivity.
Qed.

(** X10.  The report depends only on the file name, three of the basic
    statistics, the columns, the issues and the insights: two responses that
    agree on these render the same tree, whatever their [success] flag,
    timestamp, upload id, file size and the other statistics are. *)
Theorem render_ignores_unused_fields {host : JSHost} {E : Type}
    (r1 r2 : ProfileResponse.t) (onReset : E) :
  ProfileResponse.file_name r1 = ProfileResponse.file_name r2 ->
  BasicStats.row_count (ProfileResponse.basic_stats r1) =
    BasicStats.row_count (ProfileResponse.basic_stats r2) ->
  BasicStats.column_count (ProfileResponse.basic_stats r1) =
    BasicStats.column_count (ProfileResponse.basic_stats r2) ->
  BasicStats.null_percentage (ProfileResponse.basic_stats r1) =
    BasicStats.null_percentage (ProfileResponse.basic_stats r2) ->
  ProfileResponse.columns r1 = ProfileResponse.columns r2 ->
  ProfileResponse.quality_issues r1 = ProfileResponse.quality_issues r2 ->
  ProfileResponse.llm_insights r1 = ProfileResponse.llm_insights r2 ->
  ProfileResults r1 onReset = ProfileResults r2 onReset.
Proof.
  intros Hf Hr Hc Hn Hcols Hq Hl.
  unfold ProfileResults, basicStats.
  now rewrite Hf, Hr, Hc, Hn, Hcols, Hq, Hl.
Qed.

Lemma render_ignores_unused_fields_witness :
  ProfileResponse.success sampleResult <> ProfileResponse.success failedFlagResult /\
  @ProfileResults plainHost unit sampleResult tt =
  @ProfileResults plainHost unit failedFlagResult tt.
Proof.
  split; [discriminate|].
  exact (@render_ignores_unused_fields plainHost unit sampleResult failedFlagResult tt
           eq_refl eq_refl eq_refl eq_refl eq_refl eq_refl eq_refl).
Defined.

(** ** The dashboard page: upload life cycle *)

Lemma dispatch_effects (isLoading : bool) (st : UploadState) (ev : UploadEvent) :
  snd (dispatch isLoading st ev) = [] \/
  snd (dispatch isLoading st ev) = [openFilePicker] \/
  (exists file,
      snd (dispatch isLoading st ev) = [onUpload file (useLLM st)] /\
      fst (dispatch isLoading st ev) = st /\
      selectedFile st = Some file /\ isLoading = false).
Proof.
  unfold dispatch.
  destruct (enabled isLoading st (target ev)) eqn:En; [|left; reflexivity].
  destruct ev as [| |fs|fs|b|c]; try (left; reflexivity).
  destruct c; try (left; reflexivity).
  - right. left. reflexivity.
  - cbn [target] in En. rewrite enabled_AnalyzeButton in En.
    cbn [handle snd fst]. unfold handleUpload.
    destruct (selectedFile st) as [f|]; [|discriminate].
    destruct isLoading; [discriminate|].
    right. right. exists f. repeat split.
Qed.

Section DashboardLifeCycle.
Context {host : JSHost}.
Variable env : option string.

Lemma settle_outcome (file : File.t) (flag : bool)
    (outcome : Axios.HttpOutcome ResponseData) :
  uploadAndProfile env (fun _ => outcome) file (Some flag) None =
  match outcome with
  | Axios.NetworkFailure msg => Rejected {| message := msg |}
  | Axios.HttpReply code body =>
      if Axios.validateStatus code then Fulfilled body
      else Rejected
             {| message := "Request failed with status code " ++
                           (if (code <? 0)%Z then "-" else "") ++
                           JS.decimalDigits (Z.abs code) |}
  end.
Proof.
  unfold uploadAndProfile, Axios.post, await.
  destruct outcome as [msg|code body]; [reflexivity|].
  destruct (Axios.validateStatus code); reflexivity.
Qed.

(** What holds in every state the page can reach. *)
Lemma dashboard_invariant (s : DashboardState) :
  reachable env s ->
  match Mutation.status (uploadMutation s) with
  | Mutation.success =>
      Mutation.data (uploadMutation s) = Some (profileResult s) /\
      Mutation.failure (uploadMutation s) = None
  | Mutation.pending =>
      profileResult s = None /\ Mutation.variables (uploadMutation s) <> None /\
      Mutation.failure (uploadMutation s) = None
  | Mutation.error =>
      profileResult s = None /\ Mutation.failure (uploadMutation s) <> None
  | Mutation.idle =>
      profileResult s = None /\ Mutation.failure (uploadMutation s) = None
  end /\
  match profileResult s with
  | Some _ => fileUpload s = None
  | None => fileUpload s <> None
  end.
Proof.
  intros Hr. split; [|exact (rendered_widget env s Hr)].
  induction Hr as [|s ev Hr IH].
  - cbn. split; reflexivity.
  - pose proof (rendered_widget env s Hr) as Hw.
    destruct ev as [e| |outcome]; unfold step;
      cbn [render uploadMutation profileResult].
    + destruct (fileUpload s) as [w|]; [|exact IH].
      destruct (dispatch_effects (Mutation.isPending (uploadMutation s)) w e)
        as [He|[He|[file [He _]]]];
        destruct (dispatch (Mutation.isPending (uploadMutation s)) w e)
          as [w' effects]; cbn [snd] in He; subst effects; cbn.
      * exact IH.
      * exact IH.
      * repeat split; discriminate.
    + destruct (profileResult s) eqn:Hps; [cbn; split; reflexivity|].
      rewrite Hps. exact IH.
    + unfold settle.
      destruct (Mutation.isPending (uploadMutation s)) eqn:Hp; [|exact IH].
      destruct (Mutation.variables (uploadMutation s)) as [[file flag]|] eqn:Hv;
        [|rewrite Hv; exact IH].
      unfold Mutation.isPending in Hp.
      destruct (Mutation.status (uploadMutation s)) eqn:Hst; try discriminate.
      destruct IH as [Hnone [_ Hfail]].
      destruct (uploadAndProfile env (fun _ => outcome) file (Some flag) None)
        as [d|err]; cbn.
      * split; reflexivity.
      * rewrite Hnone. split; [reflexivity|discriminate].
Qed.

(** X11.  In every reachable state: a result is held exactly when the
    mutation has succeeded with a profiling document as data, and it is that
    document; whenever the mutation has succeeded, what the page holds is
    the mutation's data (so after a success with a falsy body no result is
    held); an error is held exactly when the mutation is in the error
    status; the upload widget is mounted exactly when no result is held. *)
Theorem result_is_upload_data (s : DashboardState) :
  reachable env s ->
  (forall result,
      profileResult s = Some result <->
      Mutation.status (uploadMutation s) = Mutation.success /\
      Mutation.data (uploadMutation s) = Some (Some result)) /\
  (Mutation.status (uploadMutation s) = Mutation.success ->
   Mutation.data (uploadMutation s) = Some (profileResult s)) /\
  (Mutation.failure (uploadMutation s) <> None <->
   Mutation.status (uploadMutation s) = Mutation.error) /\
  (fileUpload s <> None <-> profileResult s = None).
Proof.
  intros Hr. destruct (dashboard_invariant s Hr) as [Hm Hw].
  split; [|split; [|split]].
  - intros result.
    destruct (Mutation.status (uploadMutation s));
      try (destruct Hm as [Hn _]; rewrite Hn; split;
           [discriminate | intros [C _]; discriminate]).
    destruct Hm as [Hd _]. rewrite Hd. split.
    + intros Hx. rewrite Hx. split; reflexivity.
    + intros [_ Hx]. congruence.
  - intros Hs. rewrite Hs in Hm. exact (proj1 Hm).
  - destruct (Mutation.status (uploadMutation s)).
    + destruct Hm as [_ Hf]. rewrite Hf. split; [congruence|discriminate].
    + destruct Hm as [_ [_ Hf]]. rewrite Hf. split; [congruence|discriminate].
    + destruct Hm as [_ Hf]. rewrite Hf. split; [congruence|discriminate].
    + destruct Hm as [_ Hf]. split; [reflexivity | intros _; exact Hf].
  - destruct (profileResult s); rewrite ?Hw; split; intros H; congruence.
Qed.

End DashboardLifeCycle.

Section DashboardRuns.
Context {host : JSHost}.
Variable env : option string.

Lemma pending_state (s : DashboardState) :
  reachable env s ->
  Mutation.isPending (uploadMutation s) = true ->
  profileResult s = None /\
  (exists w, fileUpload s = Some w) /\
  (exists file flag, Mutation.variables (uploadMutation s) = Some (file, flag)).
Proof.
  intros Hr Hp. destruct (dashboard_invariant env s Hr) as [Hm Hw].
  unfold Mutation.isPending in Hp.
  destruct (Mutation.status (uploadMutation s)); try discriminate.
  destruct Hm as [Hn [Hv _]]. rewrite Hn in Hw.
  split; [exact Hn|]. split.
  - destruct (fileUpload s) as [w|]; [now exists w | congruence].
  - destruct (Mutation.variables (uploadMutation s)) as [[file flag]|];
      [now exists file, flag | congruence].
Qed.

(** X12.  When the request in flight fails, by a transport failure or by a
    reply outside 200..299, the page stays on the upload view, stops
    loading, shows the failure's message, and the widget keeps its state
    (the selected file is still there for a retry). *)
Theorem failed_upload_shows_error (s : DashboardState)
    (outcome : Axios.HttpOutcome ResponseData) (msg : string) :
  reachable env s ->
  Mutation.isPending (uploadMutation s) = true ->
  (outcome = Axios.NetworkFailure msg \/
   exists code body,
     outcome = Axios.HttpReply code body /\
     Axios.validateStatus code = false /\
     msg = "Request failed with status code " ++
           (if (code <? 0)%Z then "-" else "") ++ JS.decimalDigits (Z.abs code)) ->
  exists w,
    fileUpload s = Some w /\
    view (step env s (Settles outcome)) = UploadView w false (Some msg).
Proof.
  intros Hr Hp Hout.
  destruct (pending_state s Hr Hp) as [Hn [[w Hw] [file [flag Hv]]]].
  exists w. split; [exact Hw|].
  unfold step, settle. rewrite Hp, Hv, settle_outcome.
  destruct Hout as [->|[code [body [-> [Hbad ->]]]]].
  - unfold view. cbn. rewrite Hn, Hw. reflexivity.
  - rewrite Hbad. unfold view. cbn. rewrite Hn, Hw. reflexivity.
Qed.

(** X13.  When the request in flight is answered with a status in 200..299
    the mutation succeeds.  If the body is a profiling document the page
    replaces the upload widget by the report of that document, with Reset as
    its action; if the body is falsy (null, or the empty body of a 204) the
    page stays on the upload view with the widget's state untouched, not
    loading and without an error. *)
Theorem successful_upload_shows_report (s : DashboardState)
    (code : Z) (body : ResponseData) :
  reachable env s ->
  Mutation.isPending (uploadMutation s) = true ->
  (200 <= code < 300)%Z ->
  exists w,
    fileUpload s = Some w /\
    Mutation.status (uploadMutation (step env s (Settles (Axios.HttpReply code body)))) =
      Mutation.success /\
    view (step env s (Settles (Axios.HttpReply code body))) =
      match body with
      | Some document => ResultsView (ProfileResults document onReset)
      | None => UploadView w false None
      end /\
    fileUpload (step env s (Settles (Axios.HttpReply code body))) =
      match body with
      | Some _ => None
      | None => Some w
      end.
Proof.
  intros Hr Hp Hcode.
  destruct (pending_state s Hr Hp) as [Hn [[w Hw] [file [flag Hv]]]].
  exists w. split; [exact Hw|].
  unfold step, settle. rewrite Hp, Hv, settle_outcome.
  assert (Hok : Axios.validateStatus code = true).
  { unfold Axios.validateStatus. apply andb_true_iff. split;
      [apply Z.leb_le | apply Z.ltb_lt]; lia. }
  rewrite Hok. destruct body as [document|].
  - repeat split.
  - unfold view. cbn. rewrite Hw. repeat split.
Qed.

(** X14.  Clicking Analyze with a file selected and nothing loading starts
    one upload of that file with the current flag: the page stays on the
    upload view with the same widget state, now loading, and any error of an
    earlier attempt is gone. *)
Theorem analyze_starts_upload (s : DashboardState) (w : UploadState)
    (file : File.t) :
  fileUpload s = Some w ->
  selectedFile w = Some file ->
  Mutation.isPending (uploadMutation s) = false ->
  view (step env s (Widget (Click AnalyzeButton))) = UploadView w true None /\
  Mutation.variables (uploadMutation (step env s (Widget (Click AnalyzeButton)))) =
    Some (file, useLLM w).
Proof.
  intros Hw Hf Hp. unfold step. rewrite Hw, Hp.
  unfold dispatch. cbn [target]. rewrite enabled_AnalyzeButton, Hf.
  cbn [negb handle]. unfold handleUpload. rewrite Hf.
  split; reflexivity.
Qed.

End DashboardRuns.

Lemma failed_upload_shows_error_witness :
  let s :=
    step None
      (step None initialDashboard (Widget (Drop [sampleFile])))
      (Widget (Click AnalyzeButton)) in
  (reachable None s /\ Mutation.isPending (uploadMutation s) = true) /\
  exists w,
    fileUpload s = Some w /\
    @view plainHost (step None s (Settles (Axios.NetworkFailure "Network Error"))) =
    UploadView w false (Some "Network Error").
Proof.
  intros s.
  assert (Hr : reachable None s)
    by (repeat apply reachable_step; apply reachable_initial).
  assert (Hp : Mutation.isPending (uploadMutation s) = true) by reflexivity.
  split; [split; assumption|].
  exact (@failed_upload_shows_error plainHost None s
           (Axios.NetworkFailure "Network Error") "Network Error"
           Hr Hp (or_introl eq_refl)).
Defined.

Lemma successful_upload_shows_report_witness :
  let s :=
    step None
      (step None initialDashboard (Widget (Drop [sampleFile])))
      (Widget (Click AnalyzeButton)) in
  (reachable None s /\ Mutation.isPending (uploadMutation s) = true /\
   (200 <= 204 < 300)%Z) /\
  exists w,
    fileUpload s = Some w /\
    Mutation.status (uploadMutation (step None s (Settles (Axios.HttpReply 204 None)))) =
      Mutation.success /\
    @view plainHost (step None s (Settles (Axios.HttpReply 204 None))) =
      UploadView w false None /\
    fileUpload (step None s (Settles (Axios.HttpReply 204 None))) = Some w.
Proof.
  intros s.
  assert (Hr : reachable None s)
    by (repeat apply reachable_step; apply reachable_initial).
  assert (Hp : Mutation.isPending (uploadMutation s) = true) by reflexivity.
  assert (Hc : (200 <= 204 < 300)%Z) by lia.
  split; [exact (conj Hr (conj Hp Hc))|].
  exact (@successful_upload_shows_report plainHost None s 204 None Hr Hp Hc).
Defined.

Lemma analyze_starts_upload_witness :
  let w := {| selectedFile := Some sampleFile; useLLM := false; isDragging := false |} in
  let s := {| profileResult := None;
              uploadMutation :=
                Mutation.fail {| message := "Network Error" |}
                  (Mutation.mutate (otherFile, true) Mutation.initial);
              fileUpload := Some w |} in
  (fileUpload s = Some w /\ selectedFile w = Some sampleFile /\
   Mutation.isPending (uploadMutation s) = false) /\
  @view plainHost (step None s (Widget (Click AnalyzeButton))) = UploadView w true None /\
  Mutation.variables (uploadMutation (step None s (Widget (Click AnalyzeButton)))) =
    Some (sampleFile, false).
Proof.
  intros w s.
  assert (H1 : fileUpload s = Some w) by reflexivity.
  assert (H2 : selectedFile w = Some sampleFile) by reflexivity.
  assert (H3 : Mutation.isPending (uploadMutation s) = false) by reflexivity.
  split; [repeat split; assumption|].
  exact (@analyze_starts_upload plainHost None s w sampleFile H1 H2 H3).
Defined.

Lemma one_request_in_flight_witness :
  let s :=
    step None
      (step None initialDashboard (Widget (Drop [sampleFile])))
      (Widget (Click AnalyzeButton)) in
  Mutation.isPending (uploadMutation s) = true /\
  uploadMutation (step None s (Widget (Click AnalyzeButton))) = uploadMutation s.
Proof.
  intros s.
  assert (Hp : Mutation.isPending (uploadMutation s) = true) by reflexivity.
  split; [exact Hp|].
  exact (one_request_in_flight None s (Click AnalyzeButton) Hp).
Defined.

Lemma result_is_upload_data_witness :
  let s :=
    step None
      (step None
         (step None initialDashboard (Widget (Drop [sampleFile])))
         (Widget (Click AnalyzeButton)))
      (Settles (Axios.HttpReply 204 None)) in
  (reachable None s /\
   Mutation.status (uploadMutation s) = Mutation.success) /\
  Mutation.data (uploadMutation s) = Some (profileResult s) /\
  profileResult s = None.
Proof.
  intros s.
  assert (Hr : reachable None s)
    by (repeat apply reachable_step; apply reachable_initial).
  assert (Hs : Mutation.status (uploadMutation s) = Mutation.success) by reflexivity.
  split; [split; assumption|].
  split; [|reflexivity].
  exact (proj1 (proj2 (result_is_upload_data None s Hr)) Hs).
Defined.

(** ** The API client: omitted and empty arguments *)

(** X16.  With [useLLM] omitted, the description omitted or empty, and
    [NEXT_PUBLIC_API_URL] unset or empty, [uploadAndProfile] posts to
    http://localhost:8000/api/v1/data/upload a form holding exactly the file
    and [use_llm] = "true" (no description entry), and settles by the reply
    to that request. *)
Theorem uploadAndProfile_defaults {D : Type} (env : option string)
    (http : Axios.Request -> Axios.HttpOutcome D)
    (file : File.t) (description : option string) :
  env = None \/ env = Some "" ->
  description = None \/ description = Some "" ->
  exists request,
    Axios.method request = "POST" /\
    Axios.url request = "http://localhost:8000/api/v1/data/upload" /\
    Axios.body request =
      [("file", FileValue file); ("use_llm", StringValue "true")] /\
    uploadAndProfile env http file None description =
      match http request with
      | Axios.HttpReply code body =>
          if (200 <=? code)%Z && (code <? 300)%Z then Fulfilled body
          else Rejected
                 {| message := "Request failed with status code " ++
                               (if (code <? 0)%Z then "-" else "") ++
                               JS.decimalDigits (Z.abs code) |}
      | Axios.NetworkFailure msg => Rejected {| message := msg |}
      end.
Proof.
  intros Henv Hdesc.
  exists {| Axios.method := "POST";
            Axios.url := "http://localhost:8000/api/v1/data/upload";
            Axios.headers := [("Content-Type", "multipart/form-data")];
            Axios.body := [("file", FileValue file);
                           ("use_llm", StringValue "true")] |}.
  cbn [Axios.method Axios.url Axios.body].
  repeat (split; [reflexivity|]).
  destruct Henv as [-> | ->]; destruct Hdesc as [-> | ->];
    unfold uploadAndProfile, Axios.post, await, Axios.validateStatus; cbn;
    (destruct (http _) as [msg|code body]; [reflexivity|]);
    destruct ((200 <=? code)%Z && (code <? 300)%Z); reflexivity.
Qed.

Lemma uploadAndProfile_defaults_witness :
  (Some "" = None \/ Some "" = Some "") /\
  (Some "" = None \/ Some "" = Some "") /\
  exists request,
    Axios.url request = "http://localhost:8000/api/v1/data/upload" /\
    Axios.body request =
      [("file", FileValue sampleFile); ("use_llm", StringValue "true")] /\
    uploadAndProfile (Some "")
      (fun _ => Axios.HttpReply 200 sampleResult) sampleFile None (Some "") =
    Fulfilled sampleResult.
Proof.
  assert (H : Some "" = None \/ Some "" = Some "") by (right; reflexivity).
  split; [exact H|]. split; [exact H|].
  destruct (@uploadAndProfile_defaults ProfileResponse.t (Some "")
              (fun _ => Axios.HttpReply 200 sampleResult) sampleFile (Some "") H H)
    as [request [_ [Hu [Hb Hr]]]].
  exists request. split; [exact Hu|]. split; [exact Hb|]. exact Hr.
Defined.

(** ** The summary cards *)

Lemma nearestTenth_floor (p : Q) :
  Spec.nearestTenth p (Qfloor (p * JS.pow10 1 + (1 # 2))).
Proof.
  destruct p as [a b]. unfold Spec.nearestTenth.
  assert (E : Qfloor ((a # b) * JS.pow10 1 + (1 # 2)) =
              ((20 * a + Zpos b) / (2 * Zpos b))%Z).
  { assert (Q1 : ((a # b) * JS.pow10 1 + (1 # 2) == (20 * a + Zpos b) # (2 * b))%Q).
    { unfold JS.pow10, Qeq, Qmult, Qplus, inject_Z. cbn [Qnum Qden].
      change (10 ^ Z.of_nat 1)%Z with 10%Z. rewrite ?Pos2Z.inj_mul. lia. }
    rewrite Q1. reflexivity. }
  rewrite E.
  set (m := ((20 * a + Zpos b) / (2 * Zpos b))%Z).
  assert (Hm : (2 * Zpos b * m <= 20 * a + Zpos b < 2 * Zpos b * m + 2 * Zpos b)%Z).
  { unfold m. split.
    - apply Z.mul_div_le. lia.
    - pose proof (Z.mod_pos_bound (20 * a + Zpos b) (2 * Zpos b) ltac:(lia)) as B.
      pose proof (Z.div_mod (20 * a + Zpos b) (2 * Zpos b) ltac:(lia)) as Dv.
      lia. }
  apply Qabs_Qle_condition.
  unfold Qle, Qminus, Qdiv, Qmult, Qplus, Qopp, Qinv, inject_Z. cbn [Qnum Qden].
  rewrite ?Pos2Z.inj_mul. split; lia.
Qed.

(** X19.  The three summary cards read, in order: "Total Rows" with the
    locale-formatted row count, "Total Columns" with the column count, and
    "Null Values" with the null percentage rounded to the nearest tenth,
    written with one decimal place and followed by "%" (for a percentage
    between 0 and 100). *)
Theorem summary_cards_text {host : JSHost} {E : Type} (basic_stats : BasicStats.t) :
  (0 <= BasicStats.null_percentage basic_stats <= 100)%Q ->
  exists m,
    Spec.nearestTenth (BasicStats.null_percentage basic_stats) m /\
    map textContent (elementsByTag "p" (basicStats (E := E) basic_stats)) =
    [ "Total Rows"; toLocaleString (BasicStats.row_count basic_stats);
      "Total Columns"; JS.Number_toString (BasicStats.column_count basic_stats);
      "Null Values"; Spec.oneDecimal m ++ "%" ].
Proof.
  intros [H0 H100].
  exists (Qfloor (BasicStats.null_percentage basic_stats * JS.pow10 1 + (1 # 2))).
  split; [apply nearestTenth_floor|].
  unfold basicStats, statCard. cbn.
  rewrite !append_nil_r.
  rewrite toFixed_1_nonneg; [reflexivity | exact H0 |].
  apply Qle_lt_trans with (1 := H100). reflexivity.
Qed.

Lemma summary_cards_text_witness :
  (0 <= 1249 # 100 <= 100)%Q /\
  exists m,
    Spec.nearestTenth (1249 # 100) m /\
    map textContent
      (elementsByTag "p"
         (@basicStats plainHost unit
            {| BasicStats.row_count := 120; BasicStats.column_count := 4;
               BasicStats.memory_usage_mb := 1; BasicStats.duplicate_rows := 0;
               BasicStats.total_nulls := 60;
               BasicStats.null_percentage := 1249 # 100 |})) =
    [ "Total Rows"; @toLocaleString plainHost 120;
      "Total Columns"; @JS.Number_toString plainHost 4;
      "Null Values"; Spec.oneDecimal m ++ "%" ].
Proof.
  assert (H : (0 <= 1249 # 100 <= 100)%Q) by (split; discriminate).
  split; [exact H|].
  exact (@summary_cards_text plainHost unit
           {| BasicStats.row_count := 120; BasicStats.column_count := 4;
              BasicStats.memory_usage_mb := 1; BasicStats.duplicate_rows := 0;
              BasicStats.total_nulls := 60;
              BasicStats.null_percentage := 1249 # 100 |} H).
Defined.
